(** * OpenAPI validator: a shallow embedding of [scripts/validate.py]

    The development follows the script: Python values as produced by
    [json.loads], the builtins the script calls on them, the [Finding]
    record, the path-naming heuristics, the [$ref] collector and the
    rule engine [validate_spec], written in a small state-and-exception
    monad whose store holds the document object and the findings list.
    The second half characterises what every check appends and proves
    the properties of the engine. *)

From Stdlib Require Import ZArith List Bool Ascii String DecimalString Lia.
Import ListNotations.

Local Open Scope list_scope.
Local Open Scope string_scope.

(** ** Python strings

    A [str] is modelled by the bytes of its UTF-8 encoding, a lone
    surrogate, which [json.loads] accepts, by the three bytes the same
    scheme gives its code point.  The script
    only inspects ASCII characters ([/], [{], [_], [a-z], [A-Z]) and
    only compares against ASCII literals, and no byte of a multi-byte
    UTF-8 sequence is an ASCII byte, so these tests agree with Python's
    tests on code points.  [lower] folds ASCII letters only; Python's
    [str.lower] also maps non-ASCII letters, to non-ASCII letters or,
    for the Kelvin sign, to [k], so it turns no key with a non-ASCII
    character into one of the eight method names. *)

Module PyStr.

Definition is_upper (c : ascii) : bool :=
  let n := nat_of_ascii c in (65 <=? n)%nat && (n <=? 90)%nat.

Definition is_lower (c : ascii) : bool :=
  let n := nat_of_ascii c in (97 <=? n)%nat && (n <=? 122)%nat.

Definition lower_char (c : ascii) : ascii :=
  if is_upper c then ascii_of_nat (nat_of_ascii c + 32) else c.

(** [s.lower()] *)
Fixpoint lower (s : string) : string :=
  match s with
  | EmptyString => EmptyString
  | String c s' => String (lower_char c) (lower s')
  end.

(** [s.startswith(p)] *)
Definition startswith (s p : string) : bool := String.prefix p s.

(** [c in s] for a one-character [c] *)
Fixpoint contains_char (c : ascii) (s : string) : bool :=
  match s with
  | EmptyString => false
  | String a s' => Ascii.eqb a c || contains_char c s'
  end.

(** [s.split(sep)] for a one-character separator: [cur] holds the
    characters of the current field, most recent first. *)
Fixpoint split_aux (sep : ascii) (s : string) (cur : string) : list string :=
  match s with
  | EmptyString => [cur]
  | String c s' =>
      if Ascii.eqb c sep then cur :: split_aux sep s' EmptyString
      else split_aux sep s' (cur ++ String c EmptyString)
  end.

Definition split (s : string) (sep : ascii) : list string :=
  split_aux sep s EmptyString.

(** [sep.join(l)] *)
Fixpoint join (sep : string) (l : list string) : string :=
  match l with
  | [] => ""
  | [x] => x
  | x :: l' => x ++ sep ++ join sep l'
  end.

(** [x in l] for a tuple or set of string literals *)
Definition mem (x : string) (l : list string) : bool :=
  existsb (String.eqb x) l.

(** [re.search(r'[a-z][A-Z]', s)] as a truth value *)
Fixpoint search_lower_upper (s : string) : bool :=
  match s with
  | String a (String b _ as s') =>
      (is_lower a && is_upper b) || search_lower_upper s'
  | _ => false
  end.

(** Truthiness of a string *)
Definition nonempty (s : string) : bool :=
  match s with EmptyString => false | _ => true end.

End PyStr.

(** ** Python values produced by [json.loads] *)

(** A [float] is represented by its shortest round-tripping decimal
    expansion, which is what [repr] prints: the digits [digits] read as
    [0.d1d2...] times ten to the power [decpt].  The number [3.0] is
    [FFin false 3 1]; zero is [FFin _ 0 1]. *)
Inductive pyfloat : Type :=
| FNan
| FInf (neg : bool)
| FFin (neg : bool) (digits : N) (decpt : Z).

(** A [dict] keeps its keys in insertion order: an association list.
    [json.loads] builds dicts whose keys are distinct strings. *)
Unset Elimination Schemes.
Inductive value : Type :=
| JNull
| JBool (b : bool)
| JInt (z : Z)
| JFloat (f : pyfloat)
| JStr (s : string)
| JList (l : list value)
| JDict (d : list (string * value)).
Set Elimination Schemes.

Definition dict : Type := list (string * value).

(** [k in d] *)
Fixpoint dict_mem (k : string) (d : dict) : bool :=
  match d with
  | [] => false
  | (k', _) :: d' => String.eqb k k' || dict_mem k d'
  end.

(** [d.get(k)], with [None] as Python's [None] *)
Fixpoint dict_get (k : string) (d : dict) : option value :=
  match d with
  | [] => None
  | (k', v) :: d' => if String.eqb k k' then Some v else dict_get k d'
  end.

(** [d.get(k, {})] *)
Definition dict_get_or_empty (k : string) (d : dict) : value :=
  match dict_get k d with Some v => v | None => JDict [] end.

(** [d.get(k)] as a value *)
Definition dict_get_or_none (k : string) (d : dict) : value :=
  match dict_get k d with Some v => v | None => JNull end.

(** [bool(v)] *)
Definition truthy (v : value) : bool :=
  match v with
  | JNull => false
  | JBool b => b
  | JInt z => negb (Z.eqb z 0)
  | JFloat (FFin _ 0%N _) => false
  | JFloat _ => true
  | JStr s => PyStr.nonempty s
  | JList l => match l with [] => false | _ => true end
  | JDict d => match d with [] => false | _ => true end
  end.

(** [isinstance(v, (list, dict))]: the values that cannot be hashed *)
Definition unhashable (v : value) : bool :=
  match v with JList _ | JDict _ => true | _ => false end.

(** *** The builtins [str] and [repr]

    [str(v)] is what the script interpolates into the version message.
    On a string it is the string itself; on every other value it is
    [repr(v)].  [repr] of a float prints the shortest digits in fixed
    notation when [-4 < decpt <= 16] and in exponent notation
    otherwise; [repr] of a string quotes and escapes it, keeping the
    characters outside ASCII that [str.isprintable] accepts and
    escaping the others by their code point. *)

(** The Unicode database of the interpreter, as far as [repr] depends
    on it: whether a character outside ASCII, given by its code point,
    is printable. *)
Class Unicode : Type := { isprintable : N -> bool }.

Module PyRepr.

Definition repr_int (z : Z) : string := NilZero.string_of_int (Z.to_int z).

Fixpoint zeros (n : nat) : string :=
  match n with O => "" | S n' => String "0" (zeros n') end.

Definition fixed_notation (ds : string) (decpt : Z) : string :=
  let n := Z.of_nat (String.length ds) in
  if (decpt <=? 0)%Z then "0." ++ zeros (Z.to_nat (- decpt)) ++ ds
  else if (n <=? decpt)%Z then ds ++ zeros (Z.to_nat (decpt - n)) ++ ".0"
  else substring 0 (Z.to_nat decpt) ds ++ "."
       ++ substring (Z.to_nat decpt) (Z.to_nat (n - decpt)) ds.

Definition exponent_notation (ds : string) (decpt : Z) : string :=
  let e := (decpt - 1)%Z in
  let mant :=
    match ds with
    | String c EmptyString => String c EmptyString
    | String c rest => String c ("." ++ rest)
    | EmptyString => EmptyString
    end in
  let es := NilZero.string_of_uint (N.to_uint (Z.to_N (Z.abs e))) in
  mant ++ "e" ++ (if (e <? 0)%Z then "-" else "+")
       ++ (if (Z.abs e <? 10)%Z then "0" ++ es else es).

Definition repr_float (f : pyfloat) : string :=
  match f with
  | FNan => "nan"
  | FInf neg => if neg then "-inf" else "inf"
  | FFin neg digits decpt =>
      let ds := NilZero.string_of_uint (N.to_uint digits) in
      (if neg then "-" else "")
      ++ (if ((-4 <? decpt) && (decpt <=? 16))%Z
          then fixed_notation ds decpt
          else exponent_notation ds decpt)
  end.

Definition hex_digit (n : nat) : ascii :=
  if (n <? 10)%nat then ascii_of_nat (48 + n) else ascii_of_nat (87 + n).

Definition backslash : ascii := "092"%char.
Definition dquote : ascii := "034"%char.
Definition squote : ascii := "039"%char.

Definition escape_char (q c : ascii) : string :=
  let n := nat_of_ascii c in
  if Ascii.eqb c backslash then String backslash (String backslash "")
  else if Ascii.eqb c q then String backslash (String q "")
  else if (n =? 9)%nat then String backslash "t"
  else if (n =? 10)%nat then String backslash "n"
  else if (n =? 13)%nat then String backslash "r"
  else if ((n <? 32) || (n =? 127))%nat
       then String backslash
              (String "x" (String (hex_digit (n / 16))
                             (String (hex_digit (n mod 16)) "")))
  else String c "".

(** [k] lowercase hexadecimal digits of [n]. *)
Fixpoint hex_of (k : nat) (n : N) : string :=
  match k with
  | O => ""
  | S k' =>
      hex_of k' (n / 16)
      ++ String (hex_digit (N.to_nat (n mod 16))) ""
  end.

(** The escape of a character outside ASCII that is not printable. *)
Definition escape_code (cp : N) : string :=
  if (cp <=? 255)%N then String backslash (String "x" (hex_of 2 cp))
  else if (cp <=? 65535)%N then String backslash (String "u" (hex_of 4 cp))
  else String backslash (String "U" (hex_of 8 cp)).

(** A character being decoded: the bits of its code point read so far,
    its bytes read so far, and the number of bytes still to come. *)
Definition pending : Type := (N * string * nat)%type.

(** The first byte of a character: an ASCII character is escaped at
    once, a lead byte opens a character of two, three or four bytes.
    A byte that can open nothing belongs to no encoded [str]; it is
    kept. *)
Definition lead (q c : ascii) : string * option pending :=
  let n := N_of_ascii c in
  if (n <? 128)%N then (escape_char q c, None)
  else if ((192 <=? n) && (n <? 224))%N
       then ("", Some (N.land n 31, String c "", 1%nat))
  else if ((224 <=? n) && (n <? 240))%N
       then ("", Some (N.land n 15, String c "", 2%nat))
  else if ((240 <=? n) && (n <? 248))%N
       then ("", Some (N.land n 7, String c "", 3%nat))
  else (String c "", None).

Definition is_continuation (c : ascii) : bool :=
  let n := N_of_ascii c in ((128 <=? n) && (n <? 192))%N.

(** The body of [repr] of a string between its quotes: the bytes are
    decoded into characters, and each character is kept or escaped. *)
Fixpoint escape_from {U : Unicode} (q : ascii) (p : option pending)
    (s : string) : string :=
  match s with
  | EmptyString =>
      match p with
      | Some (_, bytes, _) => bytes
      | None => ""
      end
  | String c s' =>
      match p with
      | Some (cp, bytes, k) =>
          if is_continuation c then
            let cp' := (cp * 64 + N.land (N_of_ascii c) 63)%N in
            let bytes' := bytes ++ String c "" in
            match k with
            | S (S k') => escape_from q (Some (cp', bytes', S k')) s'
            | _ =>
                (if isprintable cp' then bytes' else escape_code cp')
                ++ escape_from q None s'
            end
          else
            let (out, p') := lead q c in
            bytes ++ out ++ escape_from q p' s'
      | None =>
          let (out, p') := lead q c in
          out ++ escape_from q p' s'
      end
  end.

Definition escape {U : Unicode} (q : ascii) (s : string) : string :=
  escape_from q None s.

Definition repr_str {U : Unicode} (s : string) : string :=
  let q := if PyStr.contains_char squote s
              && negb (PyStr.contains_char dquote s)
           then dquote else squote in
  String q (escape q s ++ String q "").

Fixpoint repr {U : Unicode} (v : value) : string :=
  match v with
  | JNull => "None"
  | JBool b => if b then "True" else "False"
  | JInt z => repr_int z
  | JFloat f => repr_float f
  | JStr s => repr_str s
  | JList l => "[" ++ PyStr.join ", " (map repr l) ++ "]"
  | JDict d =>
      "{" ++ PyStr.join ", "
               (map (fun kv : string * value => let (k, x) := kv in
                               (repr_str k ++ ": " ++ repr x)%string) d)
          ++ "}"
  end.

Definition str {U : Unicode} (v : value) : string :=
  match v with
  | JStr s => s
  | _ => repr v
  end.

End PyRepr.

Section Engine.

Context {U : Unicode}.

(** ** Findings *)

(** [class Finding]: the constructor stores its three arguments and
    checks none of them. *)
Record Finding : Type := mkFinding {
  severity : string;   (* "error" or "warning" *)
  path : string;
  message : string
}.

(** [Finding.to_text] *)
Definition to_text (f : Finding) : string :=
  let tag := if String.eqb (severity f) "error" then "ERROR" else "WARNING" in
  "[" ++ tag ++ "] " ++ path f ++ ": " ++ message f.

Definition VALID_HTTP_METHODS : list string :=
  ["get"; "put"; "post"; "delete"; "options"; "head"; "patch"; "trace"].

(** ** Path-naming heuristics *)

Definition is_camel_case (segment : string) : bool :=
  if negb (PyStr.nonempty segment) || PyStr.startswith segment "{"
  then false
  else PyStr.search_lower_upper segment.

Definition is_snake_case (segment : string) : bool :=
  if negb (PyStr.nonempty segment) || PyStr.startswith segment "{"
  then false
  else PyStr.contains_char "_" segment.

(** ** Exceptions and the state monad of the engine *)

Inductive exn : Type :=
| TypeError   (* unhashable type: 'list' or 'dict' *)
| KeyError.   (* subscript on a missing key *)

Inductive outcome (A : Type) : Type :=
| Ok (a : A)
| Raise (e : exn).
Arguments Ok {A} a.
Arguments Raise {A} e.

Definition obind {A B} (m : outcome A) (f : A -> outcome B) : outcome B :=
  match m with
  | Ok a => f a
  | Raise e => Raise e
  end.

(** [d[k]] *)
Definition dict_getitem (d : dict) (k : string) : outcome value :=
  match dict_get k d with
  | Some v => Ok v
  | None => Raise KeyError
  end.

(** A Python [set] of hashable values.  The script only ever asks
    whether a string belongs to it, so the elements are kept in the
    order they were added and repeated additions are not merged. *)
Definition pyset : Type := list value.

(** [s.add(v)] *)
Definition set_add (v : value) (s : pyset) : outcome pyset :=
  if unhashable v then Raise TypeError else Ok (s ++ [v])%list.

(** [x in s] for a string [x]: a string is equal to strings only. *)
Definition set_mem_str (x : string) (s : pyset) : bool :=
  existsb (fun v => match v with JStr t => String.eqb x t | _ => false end) s.

(** The store: the document object the caller passed, which every
    local of [validate_spec] aliases into, and the findings list of the
    running call. *)
Record store : Type := mkStore {
  st_spec : dict;
  st_findings : list Finding
}.

Definition M (A : Type) : Type := store -> outcome A * store.

Definition ret {A} (a : A) : M A := fun s => (Ok a, s).

Definition bind {A B} (m : M A) (f : A -> M B) : M B :=
  fun s =>
    match m s with
    | (Ok a, s') => f a s'
    | (Raise e, s') => (Raise e, s')
    end.

Declare Scope py_scope.
Delimit Scope py_scope with py.
Notation "x <- m ;; k" := (bind m (fun x => k))
  (at level 61, m at next level, right associativity) : py_scope.
Notation "m ;; k" := (bind m (fun _ => k))
  (at level 61, right associativity) : py_scope.
Local Open Scope py_scope.

(** An exception raised by a callee propagates; a result is passed on. *)
Definition lift {A} (o : outcome A) : M A := fun s => (o, s).

(** Reading the argument [spec] *)
Definition get_spec : M dict := fun s => (Ok (st_spec s), s).

(** [findings = []] *)
Definition new_findings : M unit :=
  fun s => (Ok tt, mkStore (st_spec s) []).

(** [findings.append(f)] *)
Definition append_finding (f : Finding) : M unit :=
  fun s => (Ok tt, mkStore (st_spec s) (st_findings s ++ [f])).

(** [return findings] *)
Definition get_findings : M (list Finding) :=
  fun s => (Ok (st_findings s), s).

(** [if b: m] *)
Definition when (b : bool) (m : M unit) : M unit :=
  if b then m else ret tt.

(** [for x in l: body] *)
Fixpoint for_each {A} (l : list A) (body : A -> M unit) : M unit :=
  match l with
  | [] => ret tt
  | x :: l' => body x ;; for_each l' body
  end.

(** ** The reference collector *)

(** [collect_schema_refs(obj, refs=None)].  The recursive calls receive
    the set itself and add to it in place; here each call hands the
    set back. *)
Fixpoint collect_schema_refs (obj : value) (refs : option pyset)
  : outcome pyset :=
  let refs := match refs with None => [] | Some r => r end in
  match obj with
  | JDict d =>
      obind (if dict_mem "$ref" d
             then obind (dict_getitem d "$ref") (fun r => set_add r refs)
             else Ok refs)
        (fun refs =>
           (fix values (d : list (string * value)) (refs : pyset) :=
              match d with
              | [] => Ok refs
              | (_, v) :: d' =>
                  obind (collect_schema_refs v (Some refs))
                        (fun refs => values d' refs)
              end) d refs)
  | JList l =>
      (fix items (l : list value) (refs : pyset) :=
         match l with
         | [] => Ok refs
         | item :: l' =>
             obind (collect_schema_refs item (Some refs))
                   (fun refs => items l' refs)
         end) l refs
  | _ => Ok refs
  end.

(** ** The rule engine

    [validate_spec] is one function in the script; each commented block
    of its body is a definition here, and [validate_spec] runs them in
    the order of the script. *)

(** Lines 67-73: the version field. *)
Definition check_openapi (spec : dict) : M unit :=
  if negb (dict_mem "openapi" spec) then
    append_finding
      (mkFinding "error" "openapi" "Missing required 'openapi' version field")
  else
    v <- lift (dict_getitem spec "openapi") ;;
    let version := PyRepr.str v in
    when (negb (PyStr.startswith version "3.0"
                || PyStr.startswith version "3.1"))
      (append_finding
         (mkFinding "error" "openapi"
            ("Unsupported OpenAPI version: " ++ version
               ++ " (expected 3.0.x or 3.1.x)"))).

(** Lines 75-81: [info] and [info.title]. *)
Definition check_info (info : value) : M unit :=
  match info with
  | JDict info =>
      c <- (if negb (dict_mem "title" info) then ret true
            else t <- lift (dict_getitem info "title") ;;
                 ret (negb (truthy t))) ;;
      when c
        (append_finding
           (mkFinding "error" "info.title"
              "Missing required 'info.title' field"))
  | _ =>
      append_finding
        (mkFinding "error" "info" "Missing required 'info' object")
  end.

(** Lines 83-85: presence of [paths]. *)
Definition check_paths_present (spec : dict) : M unit :=
  when (negb (dict_mem "paths" spec))
    (append_finding
       (mkFinding "error" "paths" "Missing required 'paths' object")).

Definition NON_METHOD_KEYS : list string :=
  ["parameters"; "summary"; "description"; "servers"; "$ref"].

(** Lines 87-102: invalid HTTP methods. *)
Definition check_http_methods (paths : value) : M unit :=
  match paths with
  | JDict paths =>
      for_each paths (fun '(path_key, path_item) =>
        match path_item with
        | JDict path_item =>
            for_each (map fst path_item) (fun method_key =>
              if PyStr.mem method_key NON_METHOD_KEYS then ret tt
              else
                when (negb (PyStr.mem (PyStr.lower method_key)
                                      VALID_HTTP_METHODS))
                  (append_finding
                     (mkFinding "error"
                        ("paths." ++ path_key ++ "." ++ method_key)
                        ("Invalid HTTP method: '" ++ method_key ++ "'"))))
        | _ => ret tt
        end)
  | _ => ret tt
  end.

(** Lines 106-108: [info.description]. *)
Definition check_info_description (info : value) : M unit :=
  match info with
  | JDict info =>
      when (negb (dict_mem "description" info)
            || negb (truthy (dict_get_or_none "description" info)))
        (append_finding
           (mkFinding "warning" "info.description"
              "Missing 'info.description'"))
  | _ => ret tt
  end.

(** Lines 132-141: the responses of one operation. *)
Definition check_responses (op_path : string) (operation : dict) : M unit :=
  let responses := dict_get_or_empty "responses" operation in
  match responses with
  | JDict responses =>
      for_each responses (fun '(status_code, response_obj) =>
        match response_obj with
        | JDict response_obj =>
            when (negb (truthy (dict_get_or_none "description" response_obj)))
              (append_finding
                 (mkFinding "warning"
                    (op_path ++ ".responses." ++ status_code)
                    "Response is missing 'description'"))
        | _ => ret tt
        end)
  | _ => ret tt
  end.

(** Lines 110-141: operations. *)
Definition check_operations (paths : value) : M unit :=
  match paths with
  | JDict paths =>
      for_each paths (fun '(path_key, path_item) =>
        match path_item with
        | JDict path_item =>
            for_each path_item (fun '(method_key, operation) =>
              if negb (PyStr.mem (PyStr.lower method_key) VALID_HTTP_METHODS)
              then ret tt
              else
                match operation with
                | JDict operation =>
                    let op_path :=
                      "paths." ++ path_key ++ "." ++ method_key in
                    let has_summary := dict_get_or_none "summary" operation in
                    let has_description :=
                      dict_get_or_none "description" operation in
                    when (negb (truthy has_summary)
                          && negb (truthy has_description))
                      (append_finding
                         (mkFinding "warning" op_path
                            "Operation is missing both 'summary' and 'description'")) ;;
                    check_responses op_path operation
                | _ => ret tt
                end)
        | _ => ret tt
        end)
  | _ => ret tt
  end.

(** Lines 148-155: the body of the loop over path keys.  The scan of
    the segments stops at the first segment that is camelCase or
    snake_case, testing camelCase first on each segment. *)
Fixpoint scan_segments (path_key : string) (segments : list string)
    (acc : list string * list string) : list string * list string :=
  match segments with
  | [] => acc
  | seg :: rest =>
      if is_camel_case seg then ((fst acc ++ [path_key])%list, snd acc)
      else if is_snake_case seg then (fst acc, (snd acc ++ [path_key])%list)
      else scan_segments path_key rest acc
  end.

Definition path_segments (path_key : string) : list string :=
  filter (fun s => PyStr.nonempty s && negb (PyStr.startswith s "{"))
         (PyStr.split path_key "/").

(** The pair [(camel_paths, snake_paths)] after the loop. *)
Definition classify_paths (path_keys : list string)
  : list string * list string :=
  fold_left (fun acc path_key =>
               scan_segments path_key (path_segments path_key) acc)
            path_keys ([], []).

Definition list_truthy {A} (l : list A) : bool :=
  match l with [] => false | _ => true end.

(** Lines 143-161: inconsistent path naming. *)
Definition check_path_naming (paths : value) : M unit :=
  match paths with
  | JDict paths =>
      let '(camel_paths, snake_paths) := classify_paths (map fst paths) in
      when (list_truthy camel_paths && list_truthy snake_paths)
        (append_finding
           (mkFinding "warning" "paths"
              "Inconsistent path naming: mix of camelCase and snake_case detected"))
  | _ => ret tt
  end.

(** Lines 163-176: unused schema definitions. *)
Definition check_unused_schemas (spec : dict) : M unit :=
  let components := dict_get_or_empty "components" spec in
  match components with
  | JDict components =>
      let schemas := dict_get_or_empty "schemas" components in
      match schemas with
      | JDict schemas =>
          if list_truthy schemas then
            all_refs <- lift (collect_schema_refs (JDict spec) None) ;;
            for_each (map fst schemas) (fun schema_name =>
              let ref_string := "#/components/schemas/" ++ schema_name in
              when (negb (set_mem_str ref_string all_refs))
                (append_finding
                   (mkFinding "warning"
                      ("components.schemas." ++ schema_name)
                      ("Schema '" ++ schema_name
                         ++ "' is defined but never referenced"))))
          else ret tt
      | _ => ret tt
      end
  | _ => ret tt
  end.

(** [validate_spec(spec)]: the argument is the document object held in
    the store. *)
Definition validate_spec : M (list Finding) :=
  spec <- get_spec ;;
  new_findings ;;
  check_openapi spec ;;
  let info := dict_get_or_none "info" spec in
  check_info info ;;
  check_paths_present spec ;;
  let paths := dict_get_or_empty "paths" spec in
  check_http_methods paths ;;
  check_info_description info ;;
  check_operations paths ;;
  check_path_naming paths ;;
  check_unused_schemas spec ;;
  get_findings.

(** A call of [validate_spec] on a document, from a store with no
    findings list yet: its outcome. *)
Definition run (spec : dict) : outcome (list Finding) :=
  fst (validate_spec (mkStore spec [])).

(** ** Strict mode (lines 223-230 of [main]) *)

(** [for f_item in findings: if f_item.severity == "warning":
    f_item.severity = "error"], the list after the loop. *)
Definition promote (findings : list Finding) : list Finding :=
  map (fun f_item =>
         if String.eqb (severity f_item) "warning"
         then mkFinding "error" (path f_item) (message f_item)
         else f_item)
      findings.

Definition errors_of (findings : list Finding) : list Finding :=
  filter (fun f_item => String.eqb (severity f_item) "error") findings.

Definition warnings_of (findings : list Finding) : list Finding :=
  filter (fun f_item => String.eqb (severity f_item) "warning") findings.

(** ** The command line ([main])

    [main] reads a file and decodes it before it runs the engine.  The
    file system and the JSON decoder are not part of the script: they
    are parameters of [main] here, each giving for its argument what
    the call in the script does: a result, an exception the script has
    a handler for, or another exception ([UnicodeDecodeError] on a file
    that is not text, [RecursionError] or [ValueError] on a document
    the decoder gives up on), which nothing catches.  A third
    parameter, [stdout_encodes], tells which texts the encoding of the
    standard output can take: [print] raises [UnicodeEncodeError] on
    the others, a lone surrogate in a path key for one. *)

(** [Finding.to_dict] *)
Definition to_dict (f : Finding) : value :=
  JDict [("severity", JStr (severity f));
         ("path", JStr (path f));
         ("message", JStr (message f))].

(** [s.split(sep, 1)] for a one-character separator. *)
Fixpoint split_once_aux (sep : ascii) (s : string) (cur : string)
  : list string :=
  match s with
  | EmptyString => [cur]
  | String c s' =>
      if Ascii.eqb c sep then [cur; s']
      else split_once_aux sep s' (cur ++ String c EmptyString)
  end.

Definition split_once (s : string) (sep : ascii) : list string :=
  split_once_aux sep s EmptyString.

(** The three locals of the argument loop: [filepath], [output_format]
    and [strict]. *)
Record options : Type := mkOptions {
  filepath : option string;
  output_format : string;
  strict : bool
}.

(** Lines 187-193: one turn of the loop over the arguments.  [None] is
    the [IndexError] of the subscript [[1]]. *)
Definition parse_arg (o : options) (arg : string) : option options :=
  if String.eqb arg "--strict" then
    Some (mkOptions (filepath o) (output_format o) true)
  else if PyStr.startswith arg "--format=" then
    match nth_error (split_once arg "=") 1 with
    | Some fmt => Some (mkOptions (filepath o) fmt (strict o))
    | None => None
    end
  else if negb (PyStr.startswith arg "-") then
    Some (mkOptions (Some arg) (output_format o) (strict o))
  else Some o.

(** Lines 183-193. *)
Fixpoint parse_args_from (o : options) (args : list string) : option options :=
  match args with
  | [] => Some o
  | arg :: rest =>
      match parse_arg o arg with
      | Some o' => parse_args_from o' rest
      | None => None
      end
  end.

Definition parse_args (args : list string) : option options :=
  parse_args_from (mkOptions None "text" false) args.

(** What [open(filepath, "r")] and [f.read()] do. *)
Inductive read_result : Type :=
| FileNotFoundError
| OSError (text : string)       (* any other [OSError], with [str(e)] *)
| ReadOtherError                (* an exception that is not an [OSError] *)
| FileContent (raw : string).

(** What [json.loads(raw)] does. *)
Inductive loads_result : Type :=
| JSONDecodeError (text : string)   (* with [str(e)] *)
| LoadsOtherError                   (* any other exception *)
| Loaded (spec : value).

(** What the process writes: [print(text)], [print(json.dumps(result,
    indent=2))] with the object it serialises, and [print(text,
    file=sys.stderr)]. *)
Inductive event : Type :=
| Stdout (text : string)
| StdoutJson (result : value)
| Stderr (text : string).

(** How the process ends: [sys.exit(code)], or an exception nothing
    catches. *)
Inductive ending : Type :=
| SysExit (code : Z)
| UncaughtIndexError
| UncaughtOther              (* of the reader, the decoder or [print] *)
| Uncaught (e : exn).        (* an exception of the engine *)

Record process : Type := mkProcess {
  trace : list event;
  final : ending
}.

Definition newline : string := String "010"%char EmptyString.

Definition str_of_len {A} (l : list A) : string :=
  PyRepr.repr_int (Z.of_nat (List.length l)).

(** Lines 234-240: the object handed to [json.dumps]. *)
Definition json_result (findings errors warnings : list Finding) : value :=
  JDict [("findings", JList (map to_dict findings));
         ("summary",
          JDict [("errors", JInt (Z.of_nat (List.length errors)));
                 ("warnings", JInt (Z.of_nat (List.length warnings)))])].

(** [for f_item in findings: print(f_item.to_text())]: the lines
    written, and whether every [print] returned.  A [print] that raises
    writes nothing and ends the loop. *)
Fixpoint print_lines (stdout_encodes : string -> bool) (lines : list string)
  : list event * bool :=
  match lines with
  | [] => ([], true)
  | line :: rest =>
      if stdout_encodes line then
        let (written, ok) := print_lines stdout_encodes rest in
        (Stdout line :: written, ok)
      else ([], false)
  end.

(** Lines 232-248: the output, and whether every [print] returned.
    Only the lines of the findings carry text of the document.  The
    other lines are ASCII, [json.dumps] escaping what is not, and are
    taken to be writable; the error stream replaces what it cannot
    encode. *)
Definition render (stdout_encodes : string -> bool) (output_format : string)
    (findings errors warnings : list Finding) : list event * bool :=
  if String.eqb output_format "json" then
    ([StdoutJson (json_result findings errors warnings)], true)
  else if negb (list_truthy findings) then
    ([Stdout "No issues found."], true)
  else
    let (written, ok) :=
      print_lines stdout_encodes (map to_text findings) in
    if ok then
      ((written
        ++ [Stdout (newline ++ "Summary: " ++ str_of_len errors
                      ++ " error(s), " ++ str_of_len warnings
                      ++ " warning(s)")])%list,
       true)
    else (written, false).

(** Lines 220-253: from the decoded object to the exit. *)
Definition report (stdout_encodes : string -> bool) (spec : dict)
    (output_format : string) (strict : bool) : process :=
  match run spec with
  | Raise e => mkProcess [] (Uncaught e)
  | Ok findings =>
      let findings := if strict then promote findings else findings in
      let errors := errors_of findings in
      let warnings := warnings_of findings in
      let (out, ok) := render stdout_encodes output_format
                              findings errors warnings in
      mkProcess out
        (if ok then SysExit (if list_truthy errors then 1 else 0)
         else UncaughtOther)
  end.

Definition usage : string :=
  "Usage: validate.py <openapi-spec.json> [--format=text|json] [--strict]".

(** [main()], with [sys.argv[1:]] as [args]. *)
Definition main (read_file : string -> read_result)
    (json_loads : string -> loads_result)
    (stdout_encodes : string -> bool) (args : list string) : process :=
  match parse_args args with
  | None => mkProcess [] UncaughtIndexError
  | Some o =>
      match filepath o with
      | None => mkProcess [Stderr usage] (SysExit 2)
      | Some file =>
          if negb (PyStr.nonempty file) then
            mkProcess [Stderr usage] (SysExit 2)
          else
            match read_file file with
            | FileNotFoundError =>
                mkProcess [Stderr ("Error: File not found: " ++ file)]
                          (SysExit 2)
            | OSError e =>
                mkProcess [Stderr ("Error: Cannot read file: " ++ e)]
                          (SysExit 2)
            | ReadOtherError => mkProcess [] UncaughtOther
            | FileContent raw =>
                match json_loads raw with
                | JSONDecodeError e =>
                    mkProcess [Stderr ("Error: Invalid JSON: " ++ e)]
                              (SysExit 2)
                | LoadsOtherError => mkProcess [] UncaughtOther
                | Loaded (JDict spec) =>
                    report stdout_encodes spec (output_format o) (strict o)
                | Loaded _ =>
                    mkProcess
                      [Stderr "Error: OpenAPI spec must be a JSON object"]
                      (SysExit 2)
                end
            end
      end
  end.

(** * What the engine computes: definitions *)

(** ** Induction on values *)

Definition value_ind (P : value -> Prop)
    (HNull : P JNull) (HBool : forall b, P (JBool b))
    (HInt : forall z, P (JInt z)) (HFloat : forall f, P (JFloat f))
    (HStr : forall s, P (JStr s))
    (HList : forall l, Forall P l -> P (JList l))
    (HDict : forall d, Forall (fun kv => P (snd kv)) d -> P (JDict d))
  : forall v, P v :=
  fix F (v : value) : P v :=
    match v with
    | JNull => HNull
    | JBool b => HBool b
    | JInt z => HInt z
    | JFloat f => HFloat f
    | JStr s => HStr s
    | JList l =>
        HList l
          ((fix G (l : list value) : Forall P l :=
              match l with
              | [] => Forall_nil _
              | x :: l' => Forall_cons x (F x) (G l')
              end) l)
    | JDict d =>
        HDict d
          ((fix G (d : list (string * value))
              : Forall (fun kv => P (snd kv)) d :=
              match d with
              | [] => Forall_nil _
              | kv :: d' =>
                  Forall_cons (P := fun kv => P (snd kv)) kv (F (snd kv)) (G d')
              end) d)
    end.

(** ** The reference collector, in closed form *)

(** Whether every [$ref] value met by the traversal can be hashed. *)
Fixpoint refs_hashable (obj : value) : bool :=
  match obj with
  | JDict d =>
      match dict_get "$ref" d with
      | Some r => negb (unhashable r)
      | None => true
      end
      && forallb (fun kv : string * value => let (_, v) := kv in refs_hashable v) d
  | JList l => forallb refs_hashable l
  | _ => true
  end.

(** What the traversal adds to the set, in the order it adds it. *)
Fixpoint collected (obj : value) : list value :=
  match obj with
  | JDict d =>
      match dict_get "$ref" d with Some r => [r] | None => [] end
      ++ flat_map (fun kv : string * value => let (_, v) := kv in collected v) d
  | JList l => flat_map collected l
  | _ => []
  end%list.

Definition refs_or_new (refs : option pyset) : pyset :=
  match refs with None => [] | Some r => r end.

(** ** What each check appends *)

(** [appends m fs]: from every store, [m] returns normally, leaves the
    document alone and extends the findings list by [fs]. *)
Definition appends (m : M unit) (fs : list Finding) : Prop :=
  forall s, m s = (Ok tt, mkStore (st_spec s) (st_findings s ++ fs)).

Definition missing_openapi : Finding :=
  mkFinding "error" "openapi" "Missing required 'openapi' version field".

Definition unsupported_version (version : string) : Finding :=
  mkFinding "error" "openapi"
    ("Unsupported OpenAPI version: " ++ version ++ " (expected 3.0.x or 3.1.x)").

Definition supported (version : string) : bool :=
  PyStr.startswith version "3.0" || PyStr.startswith version "3.1".

Definition openapi_findings (spec : dict) : list Finding :=
  match dict_get "openapi" spec with
  | None => [missing_openapi]
  | Some v =>
      if supported (PyRepr.str v) then []
      else [unsupported_version (PyRepr.str v)]
  end.

Definition info_findings (info : value) : list Finding :=
  match info with
  | JDict info =>
      if truthy (dict_get_or_none "title" info) then []
      else [mkFinding "error" "info.title" "Missing required 'info.title' field"]
  | _ => [mkFinding "error" "info" "Missing required 'info' object"]
  end.

Definition paths_present_findings (spec : dict) : list Finding :=
  match dict_get "paths" spec with
  | Some _ => []
  | None => [mkFinding "error" "paths" "Missing required 'paths' object"]
  end.

Definition invalid_method (path_key method_key : string) : Finding :=
  mkFinding "error" ("paths." ++ path_key ++ "." ++ method_key)
    ("Invalid HTTP method: '" ++ method_key ++ "'").

Definition is_method (method_key : string) : bool :=
  PyStr.mem (PyStr.lower method_key) VALID_HTTP_METHODS.

Definition method_findings_item (path_key : string) (path_item : value)
  : list Finding :=
  match path_item with
  | JDict path_item =>
      flat_map (fun method_key =>
                  if PyStr.mem method_key NON_METHOD_KEYS || is_method method_key
                  then [] else [invalid_method path_key method_key])
               (map fst path_item)
  | _ => []
  end.

Definition method_findings (paths : value) : list Finding :=
  match paths with
  | JDict paths =>
      flat_map (fun kv : string * value =>
                  method_findings_item (fst kv) (snd kv)) paths
  | _ => []
  end.

Definition info_description_findings (info : value) : list Finding :=
  match info with
  | JDict info =>
      if truthy (dict_get_or_none "description" info) then []
      else [mkFinding "warning" "info.description" "Missing 'info.description'"]
  | _ => []
  end.

Definition response_findings (op_path : string) (operation : dict)
  : list Finding :=
  match dict_get_or_empty "responses" operation with
  | JDict responses =>
      flat_map (fun kv : string * value =>
                  match snd kv with
                  | JDict response_obj =>
                      if truthy (dict_get_or_none "description" response_obj)
                      then []
                      else [mkFinding "warning"
                              (op_path ++ ".responses." ++ fst kv)
                              "Response is missing 'description'"]
                  | _ => []
                  end) responses
  | _ => []
  end.

Definition operation_findings (path_key method_key : string)
    (operation : value) : list Finding :=
  if is_method method_key then
    match operation with
    | JDict operation =>
        let op_path := "paths." ++ path_key ++ "." ++ method_key in
        ((if truthy (dict_get_or_none "summary" operation)
             || truthy (dict_get_or_none "description" operation)
          then []
          else [mkFinding "warning" op_path
                  "Operation is missing both 'summary' and 'description'"])
         ++ response_findings op_path operation)%list
    | _ => []
    end
  else [].

Definition operations_findings (paths : value) : list Finding :=
  match paths with
  | JDict paths =>
      flat_map (fun kv : string * value =>
                  match snd kv with
                  | JDict path_item =>
                      flat_map (fun mo : string * value =>
                                  operation_findings (fst kv) (fst mo) (snd mo))
                               path_item
                  | _ => []
                  end) paths
  | _ => []
  end.

Definition naming_warning : Finding :=
  mkFinding "warning" "paths"
    "Inconsistent path naming: mix of camelCase and snake_case detected".

Definition naming_findings (paths : value) : list Finding :=
  match paths with
  | JDict paths =>
      if list_truthy (fst (classify_paths (map fst paths)))
         && list_truthy (snd (classify_paths (map fst paths)))
      then [naming_warning] else []
  | _ => []
  end.

Definition ref_string (schema_name : string) : string :=
  "#/components/schemas/" ++ schema_name.

Definition unused_schema (schema_name : string) : Finding :=
  mkFinding "warning" ("components.schemas." ++ schema_name)
    ("Schema '" ++ schema_name ++ "' is defined but never referenced").

(** The schemas the last check looks at: [components.schemas] when it
    is a non-empty object, nothing otherwise. *)
Definition schemas_of (spec : dict) : dict :=
  match dict_get_or_empty "components" spec with
  | JDict components =>
      match dict_get_or_empty "schemas" components with
      | JDict schemas => schemas
      | _ => []
      end
  | _ => []
  end.

Definition unused_findings (schemas : dict) (all_refs : pyset) : list Finding :=
  flat_map (fun schema_name =>
              if set_mem_str (ref_string schema_name) all_refs then []
              else [unused_schema schema_name])
           (map fst schemas).

(** The findings of the seven checks that cannot fail, in the order
    the engine runs them. *)
Definition findings_before_unused (spec : dict) : list Finding :=
  (openapi_findings spec
   ++ info_findings (dict_get_or_none "info" spec)
   ++ paths_present_findings spec
   ++ method_findings (dict_get_or_empty "paths" spec)
   ++ info_description_findings (dict_get_or_none "info" spec)
   ++ operations_findings (dict_get_or_empty "paths" spec)
   ++ naming_findings (dict_get_or_empty "paths" spec))%list.

(** Whether a call on [spec] returns: the collector runs only when
    there are schemas to look at. *)
Definition returns (spec : dict) : bool :=
  negb (list_truthy (schemas_of spec)) || refs_hashable (JDict spec).

Definition all_findings (spec : dict) : list Finding :=
  (findings_before_unused spec
   ++ unused_findings (schemas_of spec) (collected (JDict spec)))%list.

(** ** Which check a finding comes from

    The checks write disjoint families of (severity, path) pairs, so a
    finding tells which check appended it. *)

Inductive check_id : Type :=
| ByVersion | ByInfo | ByPathsPresent | ByMethods
| ByInfoDescription | ByOperations | ByNaming | ByUnused.

Definition check_id_eqb (a b : check_id) : bool :=
  match a, b with
  | ByVersion, ByVersion | ByInfo, ByInfo | ByPathsPresent, ByPathsPresent
  | ByMethods, ByMethods | ByInfoDescription, ByInfoDescription
  | ByOperations, ByOperations | ByNaming, ByNaming | ByUnused, ByUnused => true
  | _, _ => false
  end.

Definition check_of (f : Finding) : option check_id :=
  let p := path f in
  let err := String.eqb (severity f) "error" in
  if String.eqb p "openapi" then Some ByVersion
  else if String.eqb p "info" || String.eqb p "info.title" then Some ByInfo
  else if String.eqb p "info.description" then Some ByInfoDescription
  else if String.eqb p "paths" then Some (if err then ByPathsPresent else ByNaming)
  else if String.prefix "paths." p then Some (if err then ByMethods else ByOperations)
  else if String.prefix "components.schemas." p then Some ByUnused
  else None.

Definition from_check (c : check_id) (f : Finding) : bool :=
  match check_of f with
  | Some c' => check_id_eqb c c'
  | None => false
  end.

(** The findings of one check on a document. *)
Definition findings_of_check (c : check_id) (spec : dict) : list Finding :=
  match c with
  | ByVersion => openapi_findings spec
  | ByInfo => info_findings (dict_get_or_none "info" spec)
  | ByPathsPresent => paths_present_findings spec
  | ByMethods => method_findings (dict_get_or_empty "paths" spec)
  | ByInfoDescription => info_description_findings (dict_get_or_none "info" spec)
  | ByOperations => operations_findings (dict_get_or_empty "paths" spec)
  | ByNaming => naming_findings (dict_get_or_empty "paths" spec)
  | ByUnused => unused_findings (schemas_of spec) (collected (JDict spec))
  end.

(** ** Documents and classifications the properties speak of *)

(** [spec["openapi"] = "3.0.0"] on a document without that key. *)
Definition with_version (spec : dict) : dict :=
  (spec ++ [("openapi", JStr "3.0.0")])%list.

(** The document [{"components": {"schemas": {"Pet": {}}},
    "x": {"$ref": []}}]. *)
Definition unhashable_ref_doc : dict :=
  [("components", JDict [("schemas", JDict [("Pet", JDict [])])]);
   ("x", JDict [("$ref", JList [])])].

(** The document [{"paths": {"/x": {"foo": {}}}, "components":
    {"schemas": {"Pet": {}}}, "x": {"$ref": []}}]. *)
Definition invalid_method_unhashable_ref_doc : dict :=
  [("paths", JDict [("/x", JDict [("foo", JDict [])])]);
   ("components", JDict [("schemas", JDict [("Pet", JDict [])])]);
   ("x", JDict [("$ref", JList [])])].

(** The warning of the path-naming check, recognised by its three
    fields. *)
Definition is_naming_warning (f : Finding) : bool :=
  String.eqb (severity f) "warning" && String.eqb (path f) "paths"
  && String.eqb (message f)
       "Inconsistent path naming: mix of camelCase and snake_case detected".

(** The classification as the specification states it: a path is
    camelCase when any of its remaining segments has a lowercase
    letter followed by an uppercase one, and otherwise snake_case when
    any of them has an underscore. *)
Definition stated_camel (path_key : string) : bool :=
  existsb PyStr.search_lower_upper (path_segments path_key).

Definition stated_snake (path_key : string) : bool :=
  negb (stated_camel path_key)
  && existsb (PyStr.contains_char "_") (path_segments path_key).

Definition path_naming_as_stated (spec : dict) : Prop :=
  forall ps fs,
    dict_get "paths" spec = Some (JDict ps) ->
    run spec = Ok fs ->
    (List.length (filter is_naming_warning fs) = 1
     <-> existsb stated_camel (map fst ps) = true
         /\ existsb stated_snake (map fst ps) = true).

(** The classification the engine makes: the first remaining segment
    that has either mark decides, camelCase if it has a lowercase
    letter followed by an uppercase one and snake_case otherwise. *)
Definition styled (seg : string) : bool :=
  PyStr.search_lower_upper seg || PyStr.contains_char "_" seg.

Definition first_styled (path_key : string) : option string :=
  find styled (path_segments path_key).

Definition camel_path (path_key : string) : bool :=
  match first_styled path_key with
  | Some seg => PyStr.search_lower_upper seg
  | None => false
  end.

Definition snake_path (path_key : string) : bool :=
  match first_styled path_key with
  | Some seg => negb (PyStr.search_lower_upper seg)
  | None => false
  end.

(** The document [{"paths": {"/user_items/byId": {}, "/order_lines": {}}}]. *)
Definition mixed_segments_doc : dict :=
  [("paths", JDict [("/user_items/byId", JDict []);
                    ("/order_lines", JDict [])])].

(** The reference index as the specification states it: the value of
    every [$ref] key met while descending into objects and sequences,
    without descending into that value. *)
Fixpoint ref_index (obj : value) : list value :=
  match obj with
  | JDict d =>
      flat_map (fun kv : string * value =>
                  let (k, v) := kv in
                  if String.eqb k "$ref" then [v] else ref_index v) d
  | JList l => flat_map ref_index l
  | _ => []
  end.

(** No string occurs twice in [l]. *)
Fixpoint distinct (l : list string) : bool :=
  match l with
  | [] => true
  | x :: l' => negb (PyStr.mem x l') && distinct l'
  end.

(** Every object of the tree has distinct keys, as in every value
    [json.loads] builds. *)
Fixpoint keys_distinct (obj : value) : bool :=
  match obj with
  | JDict d =>
      distinct (map fst d)
      && forallb (fun kv : string * value => let (_, v) := kv in keys_distinct v) d
  | JList l => forallb keys_distinct l
  | _ => true
  end.

(** [has_ref t obj]: somewhere in [obj] an object has the string [t]
    as the value of its [$ref] key. *)
Fixpoint has_ref (t : string) (obj : value) : bool :=
  match obj with
  | JDict d =>
      match dict_get "$ref" d with
      | Some (JStr r) => String.eqb r t
      | _ => false
      end
      || existsb (fun kv : string * value => let (_, v) := kv in has_ref t v) d
  | JList l => existsb (has_ref t) l
  | _ => false
  end.

(** The document [{"paths": {"/pets": {"get": {"$ref":
    "#/components/schemas/Pet"}}}, "components": {"schemas":
    {"Pet": {}, "Toy": {}}}}]. *)
Definition pet_toy_doc : dict :=
  [("paths",
    JDict [("/pets",
            JDict [("get",
                    JDict [("$ref", JStr "#/components/schemas/Pet")])])]);
   ("components",
    JDict [("schemas", JDict [("Pet", JDict []); ("Toy", JDict [])])])].

(** The document [{"components": {"schemas": {"Node": {"properties":
    {"next": {"$ref": "#/components/schemas/Node"}}}, "Orphan":
    {"items": [{"$ref": "#/components/schemas/Leaf"}]}, "Leaf": {}}}}]:
    [Node] refers to itself, and [Leaf] is referred to by [Orphan]
    only, which nothing refers to. *)
Definition self_ref_doc : dict :=
  [("components",
    JDict [("schemas",
            JDict [("Node",
                    JDict [("properties",
                            JDict [("next",
                                    JDict [("$ref",
                                            JStr "#/components/schemas/Node")])])]);
                   ("Orphan",
                    JDict [("items",
                            JList [JDict [("$ref",
                                           JStr "#/components/schemas/Leaf")]])]);
                   ("Leaf", JDict [])])])].

(** ** Auxiliary notions for the remaining checks and for [main] *)

(** The severity the script gives to the findings of a check. *)
Definition severity_of_check (c : check_id) : string :=
  match c with
  | ByVersion | ByInfo | ByPathsPresent | ByMethods => "error"
  | ByInfoDescription | ByOperations | ByNaming | ByUnused => "warning"
  end.

Definition is_object (v : value) : bool :=
  match v with JDict _ => true | _ => false end.

(** An argument [main] takes as the file path. *)
Definition positional (arg : string) : bool :=
  negb (PyStr.startswith arg "-").

(** An argument [main] takes as the output format. *)
Definition format_arg (arg : string) : bool :=
  PyStr.startswith arg "--format=".

Definition is_stderr (e : event) : bool :=
  match e with Stderr _ => true | _ => false end.

Definition is_stdout_json (e : event) : bool :=
  match e with StdoutJson _ => true | _ => false end.

(** [unhashable_ref obj]: somewhere in [obj], reached through the
    values of objects and the items of lists, an object has a list or
    an object as the value of its [$ref] key. *)
Inductive unhashable_ref : value -> Prop :=
| unhashable_ref_here (d : dict) (r : value) :
    dict_get "$ref" d = Some r -> unhashable r = true ->
    unhashable_ref (JDict d)
| unhashable_ref_value (d : dict) (k : string) (v : value) :
    In (k, v) d -> unhashable_ref v -> unhashable_ref (JDict d)
| unhashable_ref_item (l : list value) (v : value) :
    In v l -> unhashable_ref v -> unhashable_ref (JList l).

(** * What the engine computes: proofs *)

(** ** Dictionaries *)

Lemma dict_mem_get k (d : dict) :
  dict_mem k d = match dict_get k d with Some _ => true | None => false end.
Proof.
  induction d as [|[k' v] d IH]; simpl; [reflexivity|].
  destruct (String.eqb k k'); simpl; [reflexivity|exact IH].
Qed.

Lemma dict_get_In k (d : dict) v : dict_get k d = Some v -> In (k, v) d.
Proof.
  induction d as [|[k' x] d IH]; simpl; [discriminate|].
  destruct (String.eqb_spec k k') as [->|_].
  - intros [= ->]. now left.
  - intros H. right. auto.
Qed.

Lemma dict_get_app_other k k' v (d : dict) :
  k <> k' -> dict_get k (d ++ [(k', v)])%list = dict_get k d.
Proof.
  intros Hk. induction d as [|[k0 x] d IH]; simpl.
  - destruct (String.eqb_spec k k'); [contradiction|reflexivity].
  - destruct (String.eqb k k0); [reflexivity|exact IH].
Qed.

Lemma dict_get_app_new k v (d : dict) :
  dict_get k d = None -> dict_get k (d ++ [(k, v)])%list = Some v.
Proof.
  induction d as [|[k0 x] d IH]; simpl.
  - now rewrite String.eqb_refl.
  - destruct (String.eqb k k0); [discriminate|exact IH].
Qed.

(** ** The reference collector, in closed form *)

Lemma collect_schema_refs_closed obj :
  forall refs,
    collect_schema_refs obj refs =
    if refs_hashable obj then Ok (refs_or_new refs ++ collected obj)%list
    else Raise TypeError.
Proof.
  induction obj as [| | | | |l IH|d IH] using value_ind; intros refs;
    try (simpl; now rewrite app_nil_r).
  - (* list *)
    cbn [collect_schema_refs refs_hashable collected].
    fold (refs_or_new refs). generalize (refs_or_new refs) as r.
    induction IH as [|x l Hx _ IHl]; intros r; simpl.
    + now rewrite app_nil_r.
    + rewrite Hx. destruct (refs_hashable x); simpl; [|reflexivity].
      rewrite IHl. destruct (forallb refs_hashable l); [|reflexivity].
      now rewrite app_assoc.
  - (* dict *)
    cbn [collect_schema_refs refs_hashable collected].
    fold (refs_or_new refs). rewrite dict_mem_get. unfold dict_getitem.
    assert (Hvals : forall r,
      (fix values (d : list (string * value)) (refs : pyset) :=
         match d with
         | [] => Ok refs
         | (_, v) :: d' =>
             obind (collect_schema_refs v (Some refs))
               (fun refs => values d' refs)
         end) d r =
      if forallb (fun kv : string * value => let (_, v) := kv in refs_hashable v) d
      then Ok (r ++ flat_map (fun kv : string * value =>
                                let (_, v) := kv in collected v) d)%list
      else Raise TypeError).
    { induction IH as [|[k x] d' Hx _ IHd]; intros r; simpl.
      - now rewrite app_nil_r.
      - simpl in Hx. rewrite Hx. destruct (refs_hashable x); simpl; [|reflexivity].
        rewrite IHd.
        destruct (forallb _ d'); [|reflexivity].
        now rewrite app_assoc. }
    destruct (dict_get "$ref" d) as [r|]; simpl.
    + unfold set_add. destruct (unhashable r); simpl; [reflexivity|].
      rewrite Hvals. destruct (forallb _ d); [|reflexivity].
      now rewrite <- app_assoc.
    + rewrite Hvals. destruct (forallb _ d); reflexivity.
Qed.

(** ** What each check appends *)

Lemma appends_ret : appends (ret tt) [].
Proof. intros [d f]. unfold ret. simpl. now rewrite app_nil_r. Qed.

Lemma appends_append f : appends (append_finding f) [f].
Proof. intros s. reflexivity. Qed.

Lemma appends_seq m k fs gs :
  appends m fs -> appends k gs -> appends (m ;; k) (fs ++ gs).
Proof.
  intros Hm Hk s. unfold bind. rewrite Hm, Hk. simpl.
  now rewrite app_assoc.
Qed.

Lemma appends_when (b : bool) m fs :
  appends m fs -> appends (when b m) (if b then fs else []).
Proof. destruct b; simpl; [auto|intros _; apply appends_ret]. Qed.

Lemma appends_for_each {A} (l : list A) body (g : A -> list Finding) :
  (forall x, appends (body x) (g x)) ->
  appends (for_each l body) (flat_map g l).
Proof.
  intros H. induction l as [|x l IH]; simpl.
  - apply appends_ret.
  - apply appends_seq; auto.
Qed.

Create HintDb appends.
#[local] Hint Resolve appends_ret appends_append appends_when : appends.

Lemma check_openapi_appends spec :
  appends (check_openapi spec) (openapi_findings spec).
Proof.
  unfold check_openapi, openapi_findings, dict_getitem.
  rewrite dict_mem_get.
  destruct (dict_get "openapi" spec) as [v|]; simpl; [|apply appends_append].
  intros s. unfold bind, lift. simpl. fold (supported (PyRepr.str v)).
  destruct (supported (PyRepr.str v)); simpl.
  - apply appends_ret.
  - reflexivity.
Qed.

Lemma check_info_appends info : appends (check_info info) (info_findings info).
Proof.
  destruct info as [| | | | | |d]; try apply appends_append.
  unfold check_info, info_findings, dict_get_or_none, dict_getitem.
  rewrite dict_mem_get.
  destruct (dict_get "title" d) as [t|]; simpl; intros s;
    unfold bind, lift, ret; simpl.
  - destruct (truthy t); simpl; [apply appends_ret|reflexivity].
  - reflexivity.
Qed.

Lemma check_paths_present_appends spec :
  appends (check_paths_present spec) (paths_present_findings spec).
Proof.
  unfold check_paths_present, paths_present_findings.
  rewrite dict_mem_get.
  destruct (dict_get "paths" spec); simpl; auto with appends.
Qed.

Ltac tidy := cbn [fst snd negb orb andb when].

Lemma check_http_methods_appends paths :
  appends (check_http_methods paths) (method_findings paths).
Proof.
  destruct paths as [| | | | | |ps]; try apply appends_ret.
  apply appends_for_each. intros [pk item]. tidy.
  destruct item as [| | | | | |it]; try apply appends_ret.
  apply appends_for_each. intros mk. unfold is_method.
  destruct (PyStr.mem mk NON_METHOD_KEYS); tidy; [apply appends_ret|].
  destruct (PyStr.mem (PyStr.lower mk) VALID_HTTP_METHODS); tidy;
    auto with appends.
Qed.

Lemma check_info_description_appends info :
  appends (check_info_description info) (info_description_findings info).
Proof.
  destruct info as [| | | | | |d]; try apply appends_ret.
  unfold check_info_description, info_description_findings, dict_get_or_none.
  rewrite dict_mem_get.
  destruct (dict_get "description" d) as [t|]; tidy.
  - destruct (truthy t); tidy; auto with appends.
  - apply appends_append.
Qed.

Lemma check_responses_appends op_path operation :
  appends (check_responses op_path operation)
          (response_findings op_path operation).
Proof.
  unfold check_responses, response_findings.
  destruct (dict_get_or_empty "responses" operation) as [| | | | | |rs];
    try apply appends_ret.
  apply appends_for_each. intros [code r]. tidy.
  destruct r as [| | | | | |r]; try apply appends_ret.
  destruct (truthy (dict_get_or_none "description" r)); tidy;
    auto with appends.
Qed.

Lemma check_operations_appends paths :
  appends (check_operations paths) (operations_findings paths).
Proof.
  destruct paths as [| | | | | |ps]; try apply appends_ret.
  apply appends_for_each. intros [pk item]. tidy.
  destruct item as [| | | | | |it]; try apply appends_ret.
  apply appends_for_each. intros [mk op]. unfold operation_findings. tidy.
  fold (is_method mk). destruct (is_method mk); tidy; [|apply appends_ret].
  destruct op as [| | | | | |op]; try apply appends_ret.
  apply appends_seq; [|apply check_responses_appends].
  destruct (truthy (dict_get_or_none "summary" op)),
           (truthy (dict_get_or_none "description" op)); tidy;
    auto with appends.
Qed.

Lemma check_path_naming_appends paths :
  appends (check_path_naming paths) (naming_findings paths).
Proof.
  destruct paths as [| | | | | |ps]; try apply appends_ret.
  unfold check_path_naming, naming_findings.
  destruct (classify_paths (map fst ps)) as [c sn]. tidy.
  destruct (list_truthy c && list_truthy sn); tidy; auto with appends.
Qed.

(** The last check either appends its warnings or lets the collector's
    exception through, with the findings list as it was. *)
Lemma check_unused_schemas_closed spec s :
  check_unused_schemas spec s =
  if negb (list_truthy (schemas_of spec)) || refs_hashable (JDict spec)
  then (Ok tt,
        mkStore (st_spec s)
          (st_findings s
             ++ unused_findings (schemas_of spec) (collected (JDict spec))))
  else (Raise TypeError, s).
Proof.
  unfold check_unused_schemas, schemas_of.
  destruct (dict_get_or_empty "components" spec) as [| | | | | |cs];
    try (simpl; apply appends_ret).
  destruct (dict_get_or_empty "schemas" cs) as [| | | | | |ss];
    try (simpl; apply appends_ret).
  destruct ss as [|kv ss]; [simpl; apply appends_ret|].
  cbn [list_truthy negb orb]. unfold bind, lift.
  rewrite collect_schema_refs_closed.
  destruct (refs_hashable (JDict spec)); [|reflexivity].
  cbn [refs_or_new app].
  apply appends_for_each. intros name. fold (ref_string name).
  destruct (set_mem_str (ref_string name) (collected (JDict spec))); simpl;
    auto with appends.
Qed.

(** The engine in closed form: the store it leaves and what it
    returns, for every store it is started from. *)
Lemma validate_spec_closed s :
  validate_spec s =
  if returns (st_spec s)
  then (Ok (all_findings (st_spec s)),
        mkStore (st_spec s) (all_findings (st_spec s)))
  else (Raise TypeError,
        mkStore (st_spec s) (findings_before_unused (st_spec s))).
Proof.
  destruct s as [spec fs0]. unfold validate_spec. cbn [st_spec].
  assert (Hpre : appends
    (check_openapi spec ;;
     check_info (dict_get_or_none "info" spec) ;;
     check_paths_present spec ;;
     check_http_methods (dict_get_or_empty "paths" spec) ;;
     check_info_description (dict_get_or_none "info" spec) ;;
     check_operations (dict_get_or_empty "paths" spec) ;;
     check_path_naming (dict_get_or_empty "paths" spec))
    (findings_before_unused spec)).
  { unfold findings_before_unused.
    repeat (apply appends_seq;
            [first [apply check_openapi_appends | apply check_info_appends
                   | apply check_paths_present_appends
                   | apply check_http_methods_appends
                   | apply check_info_description_appends
                   | apply check_operations_appends]|]).
    apply check_path_naming_appends. }
  unfold appends in Hpre. unfold bind in *. unfold get_spec, new_findings.
  cbn [st_spec st_findings].
  specialize (Hpre (mkStore spec [])). cbn [st_spec st_findings app] in Hpre.
  destruct (check_openapi spec (mkStore spec [])) as [[[]|e] s1];
    [|discriminate].
  destruct (check_info _ s1) as [[[]|e] s2]; [|discriminate].
  destruct (check_paths_present _ s2) as [[[]|e] s3]; [|discriminate].
  destruct (check_http_methods _ s3) as [[[]|e] s4]; [|discriminate].
  destruct (check_info_description _ s4) as [[[]|e] s5]; [|discriminate].
  destruct (check_operations _ s5) as [[[]|e] s6]; [|discriminate].
  rewrite Hpre. rewrite check_unused_schemas_closed.
  unfold returns, all_findings.
  destruct (negb (list_truthy (schemas_of spec)) || refs_hashable (JDict spec));
    reflexivity.
Qed.

Lemma run_closed spec :
  run spec = if returns spec then Ok (all_findings spec) else Raise TypeError.
Proof.
  unfold run. rewrite validate_spec_closed. cbn [st_spec].
  destruct (returns spec); reflexivity.
Qed.

Lemma run_Ok spec fs : run spec = Ok fs -> fs = all_findings spec.
Proof.
  rewrite run_closed. destruct (returns spec); [|discriminate].
  now intros [= <-].
Qed.

Lemma prefix_empty s : String.prefix "" s = true.
Proof. destruct s; reflexivity. Qed.

Lemma check_of_paths_dot sev rest msg :
  check_of (mkFinding sev ("paths." ++ rest) msg)
  = Some (if String.eqb sev "error" then ByMethods else ByOperations).
Proof.
  unfold check_of. cbn [path severity].
  change ("paths." ++ rest) with
    (String "p" (String "a" (String "t" (String "h" (String "s" (String "." rest)))))).
  cbn. now rewrite prefix_empty.
Qed.

Lemma check_of_components sev rest msg :
  check_of (mkFinding sev ("components.schemas." ++ rest) msg) = Some ByUnused.
Proof.
  unfold check_of. cbn [path severity]. cbn. now rewrite prefix_empty.
Qed.

Lemma Forall_flat_map {A B} (P : B -> Prop) (g : A -> list B) l :
  (forall x, In x l -> Forall P (g x)) -> Forall P (flat_map g l).
Proof.
  intros H. induction l as [|x l IH]; simpl; [constructor|].
  apply Forall_app. split; [apply H; now left|].
  apply IH. intros y Hy. apply H. now right.
Qed.

Lemma findings_of_check_tagged c spec :
  Forall (fun f => check_of f = Some c) (findings_of_check c spec).
Proof.
  destruct c; cbn [findings_of_check].
  - unfold openapi_findings.
    destruct (dict_get "openapi" spec) as [v|];
      [destruct (supported (PyRepr.str v))|]; repeat constructor.
  - destruct (dict_get_or_none "info" spec) as [| | | | | |d];
      try (repeat constructor).
    unfold info_findings. destruct (truthy _); repeat constructor.
  - unfold paths_present_findings.
    destruct (dict_get "paths" spec); repeat constructor.
  - destruct (dict_get_or_empty "paths" spec) as [| | | | | |ps];
      try constructor.
    apply Forall_flat_map. intros [pk item] _. cbn [fst snd].
    destruct item as [| | | | | |it]; try constructor.
    apply Forall_flat_map. intros mk _.
    destruct (PyStr.mem mk NON_METHOD_KEYS || is_method mk); constructor;
      [|constructor].
    unfold invalid_method. now rewrite check_of_paths_dot.
  - destruct (dict_get_or_none "info" spec) as [| | | | | |d];
      try constructor.
    unfold info_description_findings. destruct (truthy _); repeat constructor.
  - destruct (dict_get_or_empty "paths" spec) as [| | | | | |ps];
      try constructor.
    apply Forall_flat_map. intros [pk item] _. cbn [fst snd].
    destruct item as [| | | | | |it]; try constructor.
    apply Forall_flat_map. intros [mk op] _. cbn [fst snd].
    unfold operation_findings. destruct (is_method mk); [|constructor].
    destruct op as [| | | | | |op]; try constructor.
    apply Forall_app. split.
    + destruct (truthy _ || truthy _); constructor; [|constructor].
      now rewrite check_of_paths_dot.
    + unfold response_findings.
      destruct (dict_get_or_empty "responses" op) as [| | | | | |rs];
        try constructor.
      apply Forall_flat_map. intros [code r] _. cbn [fst snd].
      destruct r as [| | | | | |r]; try constructor.
      destruct (truthy _); constructor; [|constructor].
      change (("paths." ++ pk ++ "." ++ mk) ++ ".responses." ++ code)
        with ("paths." ++ ((pk ++ "." ++ mk) ++ ".responses." ++ code)).
      now rewrite check_of_paths_dot.
  - destruct (dict_get_or_empty "paths" spec) as [| | | | | |ps];
      try constructor.
    unfold naming_findings. destruct (_ && _); repeat constructor.
  - unfold unused_findings. apply Forall_flat_map. intros name _.
    destruct (set_mem_str _ _); constructor; [|constructor].
    unfold unused_schema. now rewrite check_of_components.
Qed.

Lemma filter_tagged c c' (l : list Finding) :
  Forall (fun f => check_of f = Some c') l ->
  filter (from_check c) l = if check_id_eqb c c' then l else [].
Proof.
  intros H. induction H as [|f l Hf _ IH]; simpl.
  - now destruct (check_id_eqb c c').
  - unfold from_check at 1. rewrite Hf, IH.
    now destruct (check_id_eqb c c').
Qed.

Lemma all_findings_by_check spec :
  all_findings spec =
  (findings_of_check ByVersion spec ++ findings_of_check ByInfo spec
   ++ findings_of_check ByPathsPresent spec ++ findings_of_check ByMethods spec
   ++ findings_of_check ByInfoDescription spec
   ++ findings_of_check ByOperations spec ++ findings_of_check ByNaming spec
   ++ findings_of_check ByUnused spec)%list.
Proof.
  unfold all_findings, findings_before_unused. cbn [findings_of_check].
  now rewrite <- !app_assoc.
Qed.

(** Filtering the findings of a document by check gives back what that
    check appended. *)
Lemma filter_all_findings c spec :
  filter (from_check c) (all_findings spec) = findings_of_check c spec.
Proof.
  rewrite all_findings_by_check. rewrite !filter_app.
  rewrite (filter_tagged c _ _ (findings_of_check_tagged ByVersion spec)),
    (filter_tagged c _ _ (findings_of_check_tagged ByInfo spec)),
    (filter_tagged c _ _ (findings_of_check_tagged ByPathsPresent spec)),
    (filter_tagged c _ _ (findings_of_check_tagged ByMethods spec)),
    (filter_tagged c _ _ (findings_of_check_tagged ByInfoDescription spec)),
    (filter_tagged c _ _ (findings_of_check_tagged ByOperations spec)),
    (filter_tagged c _ _ (findings_of_check_tagged ByNaming spec)),
    (filter_tagged c _ _ (findings_of_check_tagged ByUnused spec)).
  destruct c; cbn [check_id_eqb app]; now rewrite ?app_nil_r.
Qed.

Lemma In_all_findings c f spec :
  check_of f = Some c ->
  (In f (all_findings spec) <-> In f (findings_of_check c spec)).
Proof.
  intros Hc. rewrite <- filter_all_findings, filter_In.
  unfold from_check. rewrite Hc.
  destruct c; cbn [check_id_eqb]; tauto.
Qed.

(** ** Strings *)

Lemma list_ascii_of_string_app (a b : string) :
  list_ascii_of_string (a ++ b)
  = (list_ascii_of_string a ++ list_ascii_of_string b)%list.
Proof. induction a as [|c a IH]; simpl; [reflexivity|now rewrite IH]. Qed.

Lemma list_ascii_of_string_inj (a b : string) :
  list_ascii_of_string a = list_ascii_of_string b -> a = b.
Proof.
  intros H. rewrite <- (string_of_list_ascii_of_string a),
    <- (string_of_list_ascii_of_string b). now rewrite H.
Qed.

Lemma append_inv_tail (a b t : string) : a ++ t = b ++ t -> a = b.
Proof.
  intros H. apply list_ascii_of_string_inj.
  apply (f_equal list_ascii_of_string) in H.
  rewrite !list_ascii_of_string_app in H.
  now apply app_inv_tail in H.
Qed.

Lemma from_check_Version f :
  from_check ByVersion f = String.eqb (path f) "openapi".
Proof.
  unfold from_check, check_of.
  destruct (String.eqb (path f) "openapi"); [reflexivity|].
  repeat match goal with
         | |- context [if ?b then _ else _] => destruct b
         end; reflexivity.
Qed.

(** ** Adding a version field to a document that lacks one *)

Lemma with_version_get k spec :
  k <> "openapi" -> dict_get k (with_version spec) = dict_get k spec.
Proof. intros H. now apply dict_get_app_other. Qed.

Lemma with_version_collected spec :
  collected (JDict (with_version spec)) = collected (JDict spec).
Proof.
  unfold with_version. cbn [collected].
  rewrite dict_get_app_other by discriminate.
  rewrite flat_map_app. cbn. now rewrite !app_nil_r.
Qed.

Lemma with_version_hashable spec :
  refs_hashable (JDict (with_version spec)) = refs_hashable (JDict spec).
Proof.
  unfold with_version. cbn [refs_hashable].
  rewrite dict_get_app_other by discriminate.
  rewrite forallb_app. cbn. now rewrite andb_true_r.
Qed.

Lemma with_version_schemas spec :
  schemas_of (with_version spec) = schemas_of spec.
Proof.
  unfold schemas_of, dict_get_or_empty.
  now rewrite with_version_get by discriminate.
Qed.

Lemma with_version_findings spec :
  dict_get "openapi" spec = None ->
  all_findings spec = missing_openapi :: all_findings (with_version spec)
  /\ returns (with_version spec) = returns spec.
Proof.
  intros Hno. split.
  - unfold all_findings, findings_before_unused, openapi_findings,
      paths_present_findings, dict_get_or_none, dict_get_or_empty.
    rewrite with_version_schemas, with_version_collected.
    rewrite (with_version_get "info"), (with_version_get "paths")
      by discriminate.
    unfold with_version at 1. rewrite (dict_get_app_new _ _ _ Hno), Hno.
    reflexivity.
  - unfold returns.
    now rewrite with_version_schemas, with_version_hashable.
Qed.

(** ** The embedding on concrete documents *)

Example str_of_values :
  map PyRepr.str
    [JFloat (FFin false 3 1); JFloat (FFin false 31 1); JInt 3; JNull;
     JBool true; JStr "3.1.0"; JFloat (FFin false 1 17); JList [JInt 1; JStr "a"]]
  = ["3.0"; "3.1"; "3"; "None"; "True"; "3.1.0"; "1e+16"; "[1, 'a']"].
Proof. reflexivity. Qed.

Example split_path :
  PyStr.split "/users/{id}/get_all" "/" = [""; "users"; "{id}"; "get_all"]
  /\ path_segments "/users/{id}/get_all" = ["users"; "get_all"].
Proof. split; reflexivity. Qed.

(** A small document with a supported version, a title and one
    operation: no error, and a warning for each missing description. *)
Example end_to_end :
  run [("openapi", JStr "3.0.0");
       ("info", JDict [("title", JStr "T")]);
       ("paths",
        JDict [("/x",
                JDict [("get",
                        JDict [("responses",
                                JDict [("200",
                                        JDict [("description", JStr "ok")])])])])])]
  = Ok [mkFinding "warning" "info.description" "Missing 'info.description'";
        mkFinding "warning" "paths./x.get"
          "Operation is missing both 'summary' and 'description'"].
Proof. reflexivity. Qed.

Example camel_and_snake_paths :
  run [("openapi", JStr "3.1.0");
       ("info", JDict [("title", JStr "T"); ("description", JStr "d")]);
       ("paths", JDict [("/getUser", JDict []); ("/get_user", JDict [])])]
  = Ok [mkFinding "warning" "paths"
          "Inconsistent path naming: mix of camelCase and snake_case detected"]
  /\ run [("openapi", JStr "3.1.0");
          ("info", JDict [("title", JStr "T"); ("description", JStr "d")]);
          ("paths", JDict [("/getUser", JDict []); ("/getAllUsers", JDict [])])]
     = Ok [].
Proof. split; reflexivity. Qed.

(** * The engine's properties *)

(** ** Exceptions *)

(** C1: evaluation does not complete on every JSON object.  On a
    document with a non-empty [components.schemas] in which some
    [$ref] key maps to a list, [collect_schema_refs] adds the list to
    a set and [validate_spec] raises [TypeError] instead of returning
    findings. *)
Theorem validate_spec_raises_on_unhashable_ref :
  run unhashable_ref_doc = Raise TypeError.
Proof. reflexivity. Qed.

(** The only exception that escapes is that [TypeError]: the guarded
    subscripts never raise [KeyError], and a call returns exactly when
    the collector is not run or meets hashable [$ref] values only. *)
Lemma run_raises spec e :
  run spec = Raise e -> e = TypeError /\ returns spec = false.
Proof.
  rewrite run_closed. destruct (returns spec); [discriminate|].
  intros [= <-]. now split.
Qed.

Lemma run_returns spec :
  returns spec = true -> run spec = Ok (all_findings spec).
Proof. intros H. now rewrite run_closed, H. Qed.

(** C3: the warning for an unused schema is lost when the collector
    raises.  In [unhashable_ref_doc] the schema [Pet] is defined under
    a non-empty [components.schemas] and the string
    [#/components/schemas/Pet] is not in the reference index, so the
    warning at [components.schemas.Pet] is due; the call raises
    [TypeError] and returns no finding. *)
Theorem unused_schema_lost_on_raise :
  dict_get "components" unhashable_ref_doc
  = Some (JDict [("schemas", JDict [("Pet", JDict [])])])
  /\ ~ In (JStr "#/components/schemas/Pet")
         (ref_index (JDict unhashable_ref_doc))
  /\ run unhashable_ref_doc = Raise TypeError.
Proof.
  split; [reflexivity|]. split; [|reflexivity].
  cbn. intros [H|[]]. discriminate H.
Qed.

(** C6: the version error is lost when the collector raises.  The
    document [unhashable_ref_doc] has no [openapi] key, so the error at
    [openapi] is due; the call raises [TypeError] and returns no
    finding. *)
Theorem missing_version_lost_on_raise :
  dict_get "openapi" unhashable_ref_doc = None
  /\ run unhashable_ref_doc = Raise TypeError.
Proof. split; reflexivity. Qed.

(** C7: the method error is lost when the collector raises.  In
    [invalid_method_unhashable_ref_doc] the path item [/x] is an object
    with the key [foo], which is not reserved and whose lowercase form
    is no HTTP method, so the error at [paths./x.foo] is due; the call
    raises [TypeError] and returns no finding. *)
Theorem invalid_method_lost_on_raise :
  dict_get "paths" invalid_method_unhashable_ref_doc
  = Some (JDict [("/x", JDict [("foo", JDict [])])])
  /\ PyStr.mem "foo" NON_METHOD_KEYS = false
  /\ PyStr.mem (PyStr.lower "foo") VALID_HTTP_METHODS = false
  /\ run invalid_method_unhashable_ref_doc = Raise TypeError.
Proof. repeat split. Qed.

(** ** Determinism *)

(** C4: [validate_spec] is deterministic and idempotent.  A second
    call, started from the store the first call left, has the same
    outcome as the first, and the outcome is the concatenation, in the
    fixed order of the checks, of what each check yields when it walks
    the document in the document's own key order. *)
Theorem validate_spec_idempotent (s : store) :
  fst (validate_spec (snd (validate_spec s))) = fst (validate_spec s)
  /\ fst (validate_spec s) =
     if returns (st_spec s)
     then Ok (openapi_findings (st_spec s)
              ++ info_findings (dict_get_or_none "info" (st_spec s))
              ++ paths_present_findings (st_spec s)
              ++ method_findings (dict_get_or_empty "paths" (st_spec s))
              ++ info_description_findings (dict_get_or_none "info" (st_spec s))
              ++ operations_findings (dict_get_or_empty "paths" (st_spec s))
              ++ naming_findings (dict_get_or_empty "paths" (st_spec s))
              ++ unused_findings (schemas_of (st_spec s))
                   (collected (JDict (st_spec s))))%list
     else Raise TypeError.
Proof.
  split.
  - rewrite (validate_spec_closed s).
    destruct (returns (st_spec s)) eqn:E; cbn [fst snd];
      rewrite validate_spec_closed; cbn [st_spec]; now rewrite E.
  - rewrite validate_spec_closed.
    destruct (returns (st_spec s)); cbn [fst]; [|reflexivity].
    unfold all_findings, findings_before_unused.
    now rewrite <- !app_assoc.
Qed.

(** ** Strict mode *)

Lemma promote_cons f fs :
  promote (f :: fs) =
  (if String.eqb (severity f) "warning"
   then mkFinding "error" (path f) (message f) else f) :: promote fs.
Proof. reflexivity. Qed.

Lemma promote_error_count findings :
  List.length (errors_of (promote findings))
  = List.length (errors_of findings) + List.length (warnings_of findings).
Proof.
  induction findings as [|f fs IH]; [reflexivity|].
  rewrite promote_cons. unfold errors_of, warnings_of in *.
  cbn [filter].
  destruct (String.eqb_spec (severity f) "warning") as [E|E].
  - rewrite E. cbn. rewrite IH. lia.
  - destruct (String.eqb (severity f) "error"); cbn; rewrite IH; lia.
Qed.

(** C5: strict-mode promotion keeps the length and every finding's
    path and message in place, turns the severity [warning] into
    [error] and leaves every other severity as it is; errors are left
    unchanged; afterwards no warning remains and the errors are the
    former errors and warnings together. *)
Theorem promote_strict (findings : list Finding) :
  List.length (promote findings) = List.length findings
  /\ map (fun f => (path f, message f)) (promote findings)
     = map (fun f => (path f, message f)) findings
  /\ map severity (promote findings)
     = map (fun f => if String.eqb (severity f) "warning" then "error"
                     else severity f) findings
  /\ promote (errors_of findings) = errors_of findings
  /\ warnings_of (promote findings) = []
  /\ List.length (errors_of (promote findings))
     = List.length (errors_of findings) + List.length (warnings_of findings)
  /\ List.length (errors_of findings) <= List.length (errors_of (promote findings)).
Proof.
  refine (conj _ (conj _ (conj _ (conj _ (conj _ (conj _ _)))))).
  - apply List.length_map.
  - induction findings as [|f fs IH]; [reflexivity|].
    rewrite promote_cons. cbn [map]. rewrite IH.
    now destruct (String.eqb (severity f) "warning").
  - induction findings as [|f fs IH]; [reflexivity|].
    rewrite promote_cons. cbn [map]. rewrite IH.
    now destruct (String.eqb (severity f) "warning").
  - induction findings as [|f fs IH]; [reflexivity|].
    unfold errors_of in *. cbn [filter].
    destruct (String.eqb_spec (severity f) "error") as [E|E]; [|exact IH].
    rewrite promote_cons, IH, E. reflexivity.
  - induction findings as [|f fs IH]; [reflexivity|].
    rewrite promote_cons. unfold warnings_of in *. cbn [filter].
    destruct (String.eqb (severity f) "warning") eqn:E; cbn [severity].
    + exact IH.
    + now rewrite E.
  - apply promote_error_count.
  - rewrite promote_error_count. lia.
Qed.

(** ** The version field *)

Lemma filter_openapi_path spec :
  filter (fun f => String.eqb (path f) "openapi") (all_findings spec)
  = openapi_findings spec.
Proof.
  change (openapi_findings spec) with (findings_of_check ByVersion spec).
  rewrite <- filter_all_findings.
  apply filter_ext. intros f. now rewrite from_check_Version.
Qed.

(** X23: when the call returns, the version check is as follows.  On
    a document without an [openapi] key the findings start
    with the missing-version error, it is the only finding at path
    [openapi], and the findings after it are exactly those of the same
    document given a supported version, so no other check is skipped;
    on a document with an [openapi] value the findings at path
    [openapi] are the unsupported-version error, once, when the text of
    the value starts with neither [3.0] nor [3.1], and none
    otherwise. *)
Theorem openapi_version_check (spec : dict) (fs : list Finding) :
  run spec = Ok fs ->
  match dict_get "openapi" spec with
  | None =>
      fs = mkFinding "error" "openapi"
             "Missing required 'openapi' version field" :: tl fs
      /\ filter (fun f => String.eqb (path f) "openapi") fs
         = [mkFinding "error" "openapi"
              "Missing required 'openapi' version field"]
      /\ run (with_version spec) = Ok (tl fs)
  | Some v =>
      filter (fun f => String.eqb (path f) "openapi") fs
      = if PyStr.startswith (PyRepr.str v) "3.0"
           || PyStr.startswith (PyRepr.str v) "3.1"
        then []
        else [mkFinding "error" "openapi"
                ("Unsupported OpenAPI version: " ++ PyRepr.str v
                   ++ " (expected 3.0.x or 3.1.x)")]
  end.
Proof.
  intros Hrun. pose proof (run_Ok _ _ Hrun) as ->.
  rewrite filter_openapi_path. unfold openapi_findings.
  destruct (dict_get "openapi" spec) as [v|] eqn:E.
  - reflexivity.
  - destruct (with_version_findings spec E) as [Hall Hret].
    rewrite Hall. cbn [tl]. repeat split.
    rewrite run_closed, Hret.
    rewrite run_closed in Hrun. now destruct (returns spec).
Qed.

(** C9: the version check tests the text of the value, whatever its
    type.  On a document whose [openapi] value is the number [3.0] no
    finding is made at path [openapi]; on a document whose [openapi]
    value is [null] the one finding at path [openapi] is the
    unsupported-version error naming [None], the text of that value. *)
Theorem version_coercion (spec3 specN : dict) (fs3 fsN : list Finding) :
  dict_get "openapi" spec3 = Some (JFloat (FFin false 3 1)) ->
  dict_get "openapi" specN = Some JNull ->
  run spec3 = Ok fs3 ->
  run specN = Ok fsN ->
  filter (fun f => String.eqb (path f) "openapi") fs3 = []
  /\ filter (fun f => String.eqb (path f) "openapi") fsN
     = [mkFinding "error" "openapi"
          "Unsupported OpenAPI version: None (expected 3.0.x or 3.1.x)"].
Proof.
  intros H3 HN Hrun3 HrunN.
  apply run_Ok in Hrun3, HrunN. subst fs3 fsN.
  rewrite !filter_openapi_path. unfold openapi_findings. rewrite H3, HN.
  split; reflexivity.
Qed.

(** ** HTTP methods *)

(** X24: when the call returns, for a key of an object path item
    other than the reserved keys, the error at [paths.<pathKey>.<methodKey>] naming the key as
    written is among the findings exactly when the lowercase form of
    the key is not one of the eight HTTP methods. *)
Theorem invalid_method_check (spec ps : dict) (pk : string) (item : dict)
    (mk : string) (fs : list Finding) :
  dict_get "paths" spec = Some (JDict ps) ->
  In (pk, JDict item) ps ->
  In mk (map fst item) ->
  PyStr.mem mk ["parameters"; "summary"; "description"; "servers"; "$ref"]
  = false ->
  run spec = Ok fs ->
  (In (mkFinding "error" ("paths." ++ pk ++ "." ++ mk)
         ("Invalid HTTP method: '" ++ mk ++ "'")) fs
   <-> PyStr.mem (PyStr.lower mk)
         ["get"; "put"; "post"; "delete"; "options"; "head"; "patch"; "trace"]
       = false).
Proof.
  intros Hp Hin Hmk Hres Hrun. apply run_Ok in Hrun. subst fs.
  rewrite (In_all_findings ByMethods) by apply check_of_paths_dot.
  cbn [findings_of_check]. unfold dict_get_or_empty. rewrite Hp.
  cbn [method_findings]. rewrite in_flat_map. split.
  - intros [[pk' item'] [_ Hf]]. cbn [fst snd] in Hf.
    destruct item' as [| | | | | |it]; try contradiction.
    unfold method_findings_item in Hf. rewrite in_flat_map in Hf.
    destruct Hf as [mk' [_ Hf]].
    destruct (PyStr.mem mk' NON_METHOD_KEYS || is_method mk') eqn:E;
      [contradiction|].
    destruct Hf as [Hf|[]].
    apply (f_equal message) in Hf. cbn [message invalid_method] in Hf.
    assert (mk' = mk) as ->.
    { apply (append_inv_tail _ _ "'").
      change ("Invalid HTTP method: '" ++ mk' ++ "'")
        with (String "I" (String "n" (String "v" (String "a" (String "l"
             (String "i" (String "d" (String " " (String "H" (String "T"
             (String "T" (String "P" (String " " (String "m" (String "e"
             (String "t" (String "h" (String "o" (String "d" (String ":"
             (String " " (String "'" (mk' ++ "'")))))))))))))))))))))))
        in Hf.
      now injection Hf. }
    apply orb_false_elim in E. exact (proj2 E).
  - intros Hinv. exists (pk, JDict item). split; [exact Hin|].
    cbn [fst snd method_findings_item]. rewrite in_flat_map.
    exists mk. split; [exact Hmk|].
    change (PyStr.mem mk NON_METHOD_KEYS) with
      (PyStr.mem mk ["parameters"; "summary"; "description"; "servers"; "$ref"]).
    unfold is_method, VALID_HTTP_METHODS. rewrite Hres, Hinv.
    now left.
Qed.

(** ** Path naming *)

Lemma scan_segments_find path_key segments acc :
  Forall (fun s => PyStr.nonempty s && negb (PyStr.startswith s "{") = true)
         segments ->
  scan_segments path_key segments acc =
  match find styled segments with
  | Some seg =>
      if PyStr.search_lower_upper seg
      then ((fst acc ++ [path_key])%list, snd acc)
      else (fst acc, (snd acc ++ [path_key])%list)
  | None => acc
  end.
Proof.
  intros H. induction H as [|seg rest Hseg _ IH]; [reflexivity|].
  cbn [scan_segments find]. unfold is_camel_case, is_snake_case, styled.
  apply andb_true_iff in Hseg. destruct Hseg as [Hne Hbr].
  rewrite Hne. apply negb_true_iff in Hbr. rewrite Hbr. cbn [negb orb].
  destruct (PyStr.search_lower_upper seg) eqn:Ec; cbn [orb];
    [now rewrite Ec|].
  destruct (PyStr.contains_char "_" seg); [now rewrite Ec|exact IH].
Qed.

Lemma path_segments_kept path_key :
  Forall (fun s => PyStr.nonempty s && negb (PyStr.startswith s "{") = true)
         (path_segments path_key).
Proof.
  apply Forall_forall. intros seg Hin.
  unfold path_segments in Hin. apply filter_In in Hin. exact (proj2 Hin).
Qed.

Lemma classify_paths_filter path_keys :
  classify_paths path_keys
  = (filter camel_path path_keys, filter snake_path path_keys).
Proof.
  unfold classify_paths.
  change (filter camel_path path_keys, filter snake_path path_keys)
    with (([] ++ filter camel_path path_keys)%list,
          ([] ++ filter snake_path path_keys)%list).
  generalize (@nil string) at 1 3 as c. generalize (@nil string) as sn.
  induction path_keys as [|pk l IH]; intros sn c; cbn [fold_left filter].
  - now rewrite !app_nil_r.
  - rewrite (scan_segments_find pk _ _ (path_segments_kept pk)).
    unfold camel_path at 1, snake_path at 1, first_styled.
    destruct (find styled (path_segments pk)) as [seg|]; [|apply IH].
    cbn [fst snd].
    destruct (PyStr.search_lower_upper seg); cbn [negb]; rewrite IH;
      now rewrite <- ?app_assoc.
Qed.

Lemma list_truthy_filter {A} (p : A -> bool) l :
  list_truthy (filter p l) = existsb p l.
Proof.
  induction l as [|x l IH]; [reflexivity|]. cbn [filter existsb].
  destruct (p x); [reflexivity|exact IH].
Qed.

Lemma filter_through {A} (p q : A -> bool) l :
  (forall x, p x = true -> q x = true) ->
  filter p l = filter p (filter q l).
Proof.
  intros H. induction l as [|x l IH]; [reflexivity|]. cbn [filter].
  destruct (p x) eqn:Ep.
  - rewrite (H x Ep). cbn [filter]. now rewrite Ep, IH.
  - destruct (q x); cbn [filter]; [rewrite Ep|]; exact IH.
Qed.

Lemma is_naming_warning_check f :
  is_naming_warning f = true -> from_check ByNaming f = true.
Proof.
  unfold is_naming_warning. intros H.
  apply andb_true_iff in H. destruct H as [H _].
  apply andb_true_iff in H. destruct H as [Hs Hp].
  apply String.eqb_eq in Hs, Hp. destruct f as [sev pa msg].
  cbn [severity path] in Hs, Hp. subst. reflexivity.
Qed.

Lemma filter_naming_warning spec :
  filter is_naming_warning (all_findings spec)
  = naming_findings (dict_get_or_empty "paths" spec).
Proof.
  rewrite (filter_through _ (from_check ByNaming) _ is_naming_warning_check).
  rewrite filter_all_findings. cbn [findings_of_check].
  destruct (dict_get_or_empty "paths" spec) as [| | | | | |ps];
    try reflexivity.
  unfold naming_findings. now destruct (_ && _).
Qed.

(** C2, amended: the path-naming warning is among the findings, once,
    exactly when some path key is classified camelCase and some path
    key is classified snake_case, a path key being classified by the
    first of its remaining segments that has either mark. *)
Theorem path_naming_check (spec ps : dict) (fs : list Finding) :
  dict_get "paths" spec = Some (JDict ps) ->
  run spec = Ok fs ->
  filter is_naming_warning fs =
  if existsb camel_path (map fst ps) && existsb snake_path (map fst ps)
  then [mkFinding "warning" "paths"
          "Inconsistent path naming: mix of camelCase and snake_case detected"]
  else [].
Proof.
  intros Hp Hrun. apply run_Ok in Hrun. subst fs.
  rewrite filter_naming_warning. unfold dict_get_or_empty. rewrite Hp.
  unfold naming_findings. rewrite classify_paths_filter. cbn [fst snd].
  now rewrite !list_truthy_filter.
Qed.

(** ** The reference index and unused schemas *)

Lemma hashable_collected r : unhashable r = false -> collected r = [].
Proof. destruct r; simpl; intros H; try reflexivity; discriminate. Qed.

Lemma mem_In x l : PyStr.mem x l = true <-> In x l.
Proof.
  unfold PyStr.mem. rewrite existsb_exists. split.
  - intros [y [Hy E]]. apply String.eqb_eq in E. now subst.
  - intros H. exists x. split; [exact H|apply String.eqb_refl].
Qed.

Lemma distinct_get k v (d : dict) :
  distinct (map fst d) = true -> In (k, v) d -> dict_get k d = Some v.
Proof.
  induction d as [|[k0 v0] d IH]; [intros _ []|].
  cbn [map fst distinct dict_get]. intros Hd [Hin|Hin].
  - injection Hin as -> ->. now rewrite String.eqb_refl.
  - apply andb_true_iff in Hd. destruct Hd as [Hnot Hd].
    destruct (String.eqb_spec k k0) as [->|_]; [|auto].
    apply negb_true_iff in Hnot.
    assert (PyStr.mem k0 (map fst d) = true) as E.
    { apply mem_In. apply in_map_iff. now exists (k0, v). }
    congruence.
Qed.

Lemma collected_entry k v (d : dict) :
  In (k, v) d -> incl (collected v) (collected (JDict d)).
Proof.
  intros Hin x Hx. cbn [collected]. apply in_or_app. right.
  apply in_flat_map. now exists (k, v).
Qed.

Lemma collected_get k v (d : dict) :
  dict_get k d = Some v -> incl (collected v) (collected (JDict d)).
Proof. intros H. apply (collected_entry k). now apply dict_get_In. Qed.

Lemma collected_ref_index obj :
  refs_hashable obj = true -> keys_distinct obj = true ->
  forall x, In x (collected obj) <-> In x (ref_index obj).
Proof.
  induction obj as [| | | | |l IH|d IH] using value_ind;
    intros Hh Hk x; try reflexivity.
  - cbn [collected ref_index refs_hashable keys_distinct] in *.
    rewrite !in_flat_map.
    rewrite forallb_forall in Hh, Hk. rewrite Forall_forall in IH.
    split; intros [y [Hy Hx]]; exists y; (split; [exact Hy|]);
      now apply (IH y Hy (Hh y Hy) (Hk y Hy)).
  - cbn [collected ref_index refs_hashable keys_distinct] in *.
    apply andb_true_iff in Hh, Hk.
    destruct Hh as [Hr Hh], Hk as [Hd Hk].
    rewrite forallb_forall in Hh, Hk. rewrite Forall_forall in IH.
    rewrite in_app_iff, !in_flat_map. split.
    + intros [Hx|[[k v] [Hin Hx]]].
      * destruct (dict_get "$ref" d) as [r|] eqn:E; [|contradiction].
        destruct Hx as [<-|[]]. exists ("$ref", r).
        split; [now apply dict_get_In|]. now left.
      * exists (k, v). split; [exact Hin|].
        destruct (String.eqb_spec k "$ref") as [->|_].
        -- rewrite (distinct_get _ _ _ Hd Hin) in Hr.
           apply negb_true_iff in Hr.
           rewrite (hashable_collected _ Hr) in Hx. contradiction.
        -- exact (proj1 (IH _ Hin (Hh _ Hin) (Hk _ Hin) x) Hx).
    + intros [[k v] [Hin Hx]].
      destruct (String.eqb_spec k "$ref") as [->|_].
      * left. rewrite (distinct_get _ _ _ Hd Hin). exact Hx.
      * right. exists (k, v). split; [exact Hin|].
        exact (proj2 (IH _ Hin (Hh _ Hin) (Hk _ Hin) x) Hx).
Qed.

Lemma has_ref_collected t obj :
  has_ref t obj = true -> In (JStr t) (collected obj).
Proof.
  induction obj as [| | | | |l IH|d IH] using value_ind;
    cbn [has_ref collected]; try discriminate.
  - rewrite existsb_exists, in_flat_map. rewrite Forall_forall in IH.
    intros [y [Hy H]]. exists y. split; [exact Hy|]. now apply IH.
  - rewrite orb_true_iff, existsb_exists, in_app_iff, in_flat_map.
    rewrite Forall_forall in IH. intros [H|[[k v] [Hin H]]].
    + left. destruct (dict_get "$ref" d) as [[| | | |r| |]|];
        try discriminate.
      apply String.eqb_eq in H. subst. now left.
    + right. exists (k, v). split; [exact Hin|]. exact (IH _ Hin H).
Qed.

Lemma set_mem_str_In t (idx : pyset) :
  set_mem_str t idx = true <-> In (JStr t) idx.
Proof.
  unfold set_mem_str. rewrite existsb_exists. split.
  - intros [v [Hv E]]. destruct v; try discriminate.
    apply String.eqb_eq in E. now subst.
  - intros H. exists (JStr t). split; [exact H|apply String.eqb_refl].
Qed.

Lemma schemas_of_get spec comps schemas :
  dict_get "components" spec = Some (JDict comps) ->
  dict_get "schemas" comps = Some (JDict schemas) ->
  schemas_of spec = schemas.
Proof.
  intros Hc Hs. unfold schemas_of, dict_get_or_empty. now rewrite Hc, Hs.
Qed.

(** A finding at [components.schemas.<S>] is the unused-schema warning
    for [S], made because the reference to [S] is not in the set. *)
Lemma finding_at_schema spec f S :
  In f (all_findings spec) ->
  path f = "components.schemas." ++ S ->
  f = unused_schema S
  /\ In S (map fst (schemas_of spec))
  /\ set_mem_str (ref_string S) (collected (JDict spec)) = false.
Proof.
  intros Hin Hp.
  assert (Hc : check_of f = Some ByUnused).
  { destruct f as [sev pa msg]. cbn [path] in Hp. subst pa.
    apply check_of_components. }
  apply (In_all_findings ByUnused _ _ Hc) in Hin.
  cbn [findings_of_check] in Hin. unfold unused_findings in Hin.
  apply in_flat_map in Hin. destruct Hin as [S' [HS' Hin]].
  destruct (set_mem_str (ref_string S') _) eqn:E; [contradiction|].
  destruct Hin as [<-|[]]. cbn [path unused_schema] in Hp.
  injection Hp as ->. now repeat split.
Qed.

Lemma unused_schema_found spec S :
  In S (map fst (schemas_of spec)) ->
  set_mem_str (ref_string S) (collected (JDict spec)) = false ->
  In (unused_schema S) (all_findings spec).
Proof.
  intros HS E.
  apply (In_all_findings ByUnused); [apply check_of_components|].
  cbn [findings_of_check]. unfold unused_findings. apply in_flat_map.
  exists S. split; [exact HS|]. rewrite E. now left.
Qed.

(** X22: on a document whose objects have distinct keys and whose
    [components.schemas] is a non-empty object, a call that returns
    has built an index holding exactly the values of the [$ref] keys
    met while descending into objects and sequences, and a warning at
    [components.schemas.<S>] is among the findings exactly when the
    string [#/components/schemas/<S>] is not in that index. *)
Theorem unused_schema_check (spec comps schemas : dict) (fs : list Finding) :
  keys_distinct (JDict spec) = true ->
  dict_get "components" spec = Some (JDict comps) ->
  dict_get "schemas" comps = Some (JDict schemas) ->
  schemas <> [] ->
  run spec = Ok fs ->
  exists idx : pyset,
    collect_schema_refs (JDict spec) None = Ok idx
    /\ (forall v, In v idx <-> In v (ref_index (JDict spec)))
    /\ (forall S, In S (map fst schemas) ->
          ((exists f, In f fs /\ severity f = "warning"
                      /\ path f = "components.schemas." ++ S)
           <-> ~ In (JStr ("#/components/schemas/" ++ S)) idx)).
Proof.
  intros Hk Hc Hs Hne Hrun.
  pose proof (schemas_of_get _ _ _ Hc Hs) as Hschemas.
  assert (Hh : refs_hashable (JDict spec) = true).
  { rewrite run_closed in Hrun. unfold returns in Hrun.
    rewrite Hschemas in Hrun.
    destruct schemas; [contradiction|]. cbn [list_truthy negb orb] in Hrun.
    destruct (refs_hashable (JDict spec)); [reflexivity|discriminate]. }
  apply run_Ok in Hrun. subst fs.
  exists (collected (JDict spec)). split; [|split].
  - rewrite collect_schema_refs_closed, Hh. reflexivity.
  - apply collected_ref_index; assumption.
  - intros S HS. rewrite <- set_mem_str_In. fold (ref_string S). split.
    + intros [f [Hin [_ Hp]]].
      destruct (finding_at_schema _ _ _ Hin Hp) as [_ [_ E]].
      rewrite E. discriminate.
    + intros E. apply not_true_is_false in E.
      exists (unused_schema S). split; [|split; reflexivity].
      apply unused_schema_found; [now rewrite Hschemas|exact E].
Qed.

(** C10: the index is collected over the whole document, the schema
    definitions included.  When the reference to schema [S] occurs as a
    [$ref] value inside the definition of any schema [T] under
    [components.schemas], [S] itself or another schema, used or not,
    no finding is made at [components.schemas.<S>]. *)
Theorem reference_inside_schemas (spec comps schemas : dict) (S T : string)
    (body : value) (fs : list Finding) :
  dict_get "components" spec = Some (JDict comps) ->
  dict_get "schemas" comps = Some (JDict schemas) ->
  In (T, body) schemas ->
  has_ref ("#/components/schemas/" ++ S) body = true ->
  run spec = Ok fs ->
  forall f, In f fs -> path f <> "components.schemas." ++ S.
Proof.
  intros Hc Hs HT Href Hrun f Hin Hp.
  apply run_Ok in Hrun. subst fs.
  destruct (finding_at_schema _ _ _ Hin Hp) as [_ [_ E]].
  assert (Hidx : In (JStr (ref_string S)) (collected (JDict spec))).
  { apply (collected_get _ _ _ Hc), (collected_get _ _ _ Hs),
      (collected_entry _ _ _ HT).
    now apply has_ref_collected. }
  apply set_mem_str_In in Hidx. congruence.
Qed.

(** * Further properties of the engine *)

(** ** The [info] and [paths] checks *)

Lemma filter_by_path p c spec :
  (forall f, String.eqb (path f) p = true -> from_check c f = true) ->
  filter (fun f => String.eqb (path f) p) (all_findings spec)
  = filter (fun f => String.eqb (path f) p) (findings_of_check c spec).
Proof.
  intros H. rewrite (filter_through _ (from_check c) _ H).
  now rewrite filter_all_findings.
Qed.

Lemma path_literal_check p c :
  check_of (mkFinding "" p "") = Some c ->
  check_of (mkFinding "error" p "") = Some c ->
  forall f, String.eqb (path f) p = true -> from_check c f = true.
Proof.
  intros Hw He [sev pa msg] H. cbn [path] in H.
  apply String.eqb_eq in H. subst pa.
  unfold from_check.
  assert (check_of (mkFinding sev p msg) = Some c) as ->.
  { unfold check_of in *. cbn [path severity] in *.
    destruct (String.eqb sev "error"); assumption. }
  now destruct c.
Qed.

(** X1: the [info] check.  The error at [info] is made, once, exactly
    when the document has no [info] object; the error at [info.title]
    is made, once, exactly when [info] is an object whose [title] is
    absent or falsy (an empty string, [0], [null], an empty list or
    object). *)
Theorem info_check (spec : dict) (fs : list Finding) :
  run spec = Ok fs ->
  filter (fun f => String.eqb (path f) "info") fs
  = match dict_get "info" spec with
    | Some (JDict _) => []
    | _ => [mkFinding "error" "info" "Missing required 'info' object"]
    end
  /\ filter (fun f => String.eqb (path f) "info.title") fs
     = match dict_get "info" spec with
       | Some (JDict info) =>
           if truthy (dict_get_or_none "title" info) then []
           else [mkFinding "error" "info.title"
                   "Missing required 'info.title' field"]
       | _ => []
       end.
Proof.
  intros Hrun. apply run_Ok in Hrun. subst fs.
  rewrite (filter_by_path "info" ByInfo),
    (filter_by_path "info.title" ByInfo)
    by (apply path_literal_check; reflexivity).
  cbn [findings_of_check].
  change (dict_get_or_none "info" spec)
    with (match dict_get "info" spec with Some v => v | None => JNull end).
  destruct (dict_get "info" spec) as [[| | | | | |d]|]; try (split; reflexivity).
  unfold info_findings.
  destruct (truthy (dict_get_or_none "title" d)); split; reflexivity.
Qed.

(** X2: the presence check on [paths] looks at the key only.  The
    error at [paths] is made, once, exactly when the document has no
    [paths] key, whatever the type of the value when there is one. *)
Theorem paths_present_check (spec : dict) (fs : list Finding) :
  run spec = Ok fs ->
  filter (fun f => String.eqb (path f) "paths"
                   && String.eqb (severity f) "error") fs
  = match dict_get "paths" spec with
    | Some _ => []
    | None => [mkFinding "error" "paths" "Missing required 'paths' object"]
    end.
Proof.
  intros Hrun. apply run_Ok in Hrun. subst fs.
  rewrite (filter_through _ (from_check ByPathsPresent)).
  - rewrite filter_all_findings. cbn [findings_of_check].
    unfold paths_present_findings.
    now destruct (dict_get "paths" spec).
  - intros [sev pa msg] H. cbn [path severity] in H.
    apply andb_true_iff in H. destruct H as [Hp Hs].
    apply String.eqb_eq in Hp, Hs. now subst.
Qed.

Lemma check_of_paths_prefix f c :
  check_of f = Some c ->
  String.prefix "paths" (path f) = true ->
  c = ByPathsPresent \/ c = ByNaming \/ c = ByMethods \/ c = ByOperations.
Proof.
  intros Hc Hp. unfold check_of in Hc.
  destruct (String.eqb_spec (path f) "openapi") as [E|_];
    [rewrite E in Hp; discriminate|].
  destruct (String.eqb_spec (path f) "info") as [E|_];
    [rewrite E in Hp; discriminate|].
  destruct (String.eqb_spec (path f) "info.title") as [E|_];
    [rewrite E in Hp; discriminate|].
  destruct (String.eqb_spec (path f) "info.description") as [E|_];
    [rewrite E in Hp; discriminate|].
  cbn [orb] in Hc.
  destruct (String.eqb (path f) "paths").
  { destruct (String.eqb (severity f) "error"); injection Hc as <-; auto. }
  destruct (String.prefix "paths." (path f)).
  { destruct (String.eqb (severity f) "error"); injection Hc as <-; auto. }
  destruct (path f) as [|a q]; [discriminate Hp|].
  cbn [String.prefix] in Hp, Hc.
  destruct (ascii_dec "p" a) as [<-|_]; [|discriminate Hp].
  destruct (ascii_dec "c" "p") as [E|_]; [discriminate E|discriminate Hc].
Qed.

(** X3: a [paths] value that is not an object silences every check on
    paths.  When the key is present with such a value, no finding is
    made at [paths] or below it: no missing-paths error, no method
    error, no operation or response warning, no naming warning. *)
Theorem non_object_paths_skipped (spec : dict) (v : value)
    (fs : list Finding) :
  dict_get "paths" spec = Some v ->
  is_object v = false ->
  run spec = Ok fs ->
  forall f, In f fs -> String.prefix "paths" (path f) = false.
Proof.
  intros Hp Hv Hrun f Hin. apply run_Ok in Hrun. subst fs.
  destruct (String.prefix "paths" (path f)) eqn:E; [exfalso|reflexivity].
  assert (Hempty : forall c,
    c = ByPathsPresent \/ c = ByNaming \/ c = ByMethods \/ c = ByOperations ->
    findings_of_check c spec = []).
  { intros c [ -> | [ -> | [ -> | -> ] ] ]; cbn [findings_of_check];
      unfold paths_present_findings, dict_get_or_empty; rewrite Hp;
      try reflexivity; destruct v; try reflexivity; discriminate Hv. }
  rewrite all_findings_by_check in Hin.
  repeat (apply in_app_or in Hin; destruct Hin as [Hin|Hin]);
    match type of Hin with
    | In _ (findings_of_check ?c _) =>
        pose proof (findings_of_check_tagged c spec) as Ht;
        rewrite Forall_forall in Ht;
        pose proof (check_of_paths_prefix _ _ (Ht _ Hin) E) as Hc;
        rewrite (Hempty _ Hc) in Hin; exact Hin
    end.
Qed.

(** X4: the [info.description] check.  The warning is made, once,
    exactly when [info] is an object whose [description] is absent or
    falsy; when [info] is missing or not an object only the [info]
    error is made. *)
Theorem info_description_check (spec : dict) (fs : list Finding) :
  run spec = Ok fs ->
  filter (fun f => String.eqb (path f) "info.description") fs
  = match dict_get "info" spec with
    | Some (JDict info) =>
        if truthy (dict_get_or_none "description" info) then []
        else [mkFinding "warning" "info.description"
                "Missing 'info.description'"]
    | _ => []
    end.
Proof.
  intros Hrun. apply run_Ok in Hrun. subst fs.
  rewrite (filter_by_path "info.description" ByInfoDescription)
    by (apply path_literal_check; reflexivity).
  cbn [findings_of_check].
  change (dict_get_or_none "info" spec)
    with (match dict_get "info" spec with Some v => v | None => JNull end).
  destruct (dict_get "info" spec) as [[| | | | | |d]|]; try reflexivity.
  unfold info_description_findings.
  now destruct (truthy (dict_get_or_none "description" d)).
Qed.

(** ** Operations and responses *)

Lemma lower_char_dot a :
  Ascii.eqb (PyStr.lower_char a) "." = Ascii.eqb a ".".
Proof. destruct a as [[] [] [] [] [] [] [] []]; reflexivity. Qed.

Lemma contains_dot_lower s :
  PyStr.contains_char "." (PyStr.lower s) = PyStr.contains_char "." s.
Proof.
  induction s as [|a s IH]; [reflexivity|].
  cbn [PyStr.lower PyStr.contains_char]. now rewrite lower_char_dot, IH.
Qed.

Lemma is_method_no_dot mk :
  is_method mk = true -> PyStr.contains_char "." mk = false.
Proof.
  unfold is_method, PyStr.mem, VALID_HTTP_METHODS. cbn [existsb].
  rewrite <- contains_dot_lower. intros H.
  repeat (apply orb_true_iff in H; destruct H as [H|H];
          [apply String.eqb_eq in H; now rewrite H|]).
  discriminate H.
Qed.

Lemma contains_char_app c (a b : string) :
  PyStr.contains_char c (a ++ String c b) = true.
Proof.
  induction a as [|x a IH]; cbn [append PyStr.contains_char].
  - now rewrite Ascii.eqb_refl.
  - rewrite IH. apply orb_true_r.
Qed.

(** A dotted pair [a.m] whose second part has no dot splits in one way
    only. *)
Lemma dotted_pair_inj (a a' m m' : string) :
  PyStr.contains_char "." m = false ->
  PyStr.contains_char "." m' = false ->
  a ++ "." ++ m = a' ++ "." ++ m' -> a = a' /\ m = m'.
Proof.
  intros Hm Hm'. revert a'.
  induction a as [|c a IH]; intros [|c' a'] H; cbn [append] in H.
  - injection H as ->. now split.
  - injection H as <- ->.
    now rewrite contains_char_app in Hm.
  - injection H as -> <-.
    now rewrite contains_char_app in Hm'.
  - injection H as -> H. destruct (IH _ H) as [-> ->]. now split.
Qed.

Lemma distinct_unique k (d : dict) x y :
  distinct (map fst d) = true -> In (k, x) d -> In (k, y) d -> x = y.
Proof.
  intros Hd Hx Hy.
  pose proof (distinct_get _ _ _ Hd Hx) as Ex.
  pose proof (distinct_get _ _ _ Hd Hy) as Ey. congruence.
Qed.

(** X5: the summary check of an operation.  In a document whose
    [paths] object and path item have distinct keys, for a key of the
    path item whose lowercase form is an HTTP method and whose value is
    an object, the warning at [paths.<pathKey>.<methodKey>] is among
    the findings exactly when the operation has neither a truthy
    [summary] nor a truthy [description]. *)
Theorem operation_summary_check (spec ps : dict) (pk : string) (item : dict)
    (mk : string) (op : dict) (fs : list Finding) :
  dict_get "paths" spec = Some (JDict ps) ->
  distinct (map fst ps) = true ->
  In (pk, JDict item) ps ->
  distinct (map fst item) = true ->
  In (mk, JDict op) item ->
  PyStr.mem (PyStr.lower mk) VALID_HTTP_METHODS = true ->
  run spec = Ok fs ->
  (In (mkFinding "warning" ("paths." ++ pk ++ "." ++ mk)
         "Operation is missing both 'summary' and 'description'") fs
   <-> truthy (dict_get_or_none "summary" op) = false
       /\ truthy (dict_get_or_none "description" op) = false).
Proof.
  intros Hp Hdps Hitem Hditem Hop Hmeth Hrun.
  apply run_Ok in Hrun. subst fs.
  rewrite (In_all_findings ByOperations) by apply check_of_paths_dot.
  cbn [findings_of_check]. unfold dict_get_or_empty. rewrite Hp.
  cbn [operations_findings]. rewrite in_flat_map. split.
  - intros [[pk' item'] [Hin' Hf]]. cbn [fst snd] in Hf.
    destruct item' as [| | | | | |it]; try contradiction.
    rewrite in_flat_map in Hf. destruct Hf as [[mk' op'] [Hop' Hf]].
    cbn [fst snd] in Hf. unfold operation_findings in Hf.
    destruct (is_method mk') eqn:Hmeth'; [|contradiction].
    destruct op' as [| | | | | |o]; try contradiction.
    apply in_app_or in Hf. destruct Hf as [Hf|Hf].
    + destruct (truthy (dict_get_or_none "summary" o)
                || truthy (dict_get_or_none "description" o)) eqn:E;
        [contradiction|].
      destruct Hf as [Hf|[]].
      apply (f_equal path) in Hf. cbn [path] in Hf.
      change ("paths." ++ pk' ++ "." ++ mk')
        with (String "p" (String "a" (String "t" (String "h" (String "s"
             (String "." (pk' ++ "." ++ mk'))))))) in Hf.
      injection Hf as Hf.
      destruct (dotted_pair_inj _ _ _ _ (is_method_no_dot _ Hmeth')
                  (is_method_no_dot _ Hmeth) Hf) as [-> ->].
      pose proof (distinct_unique _ _ _ _ Hdps Hin' Hitem) as Eitem.
      injection Eitem as ->.
      pose proof (distinct_unique _ _ _ _ Hditem Hop' Hop) as Eop.
      injection Eop as ->.
      now apply orb_false_elim in E.
    + unfold response_findings in Hf.
      destruct (dict_get_or_empty "responses" o) as [| | | | | |rs];
        try contradiction.
      rewrite in_flat_map in Hf. destruct Hf as [[code r] [_ Hf]].
      cbn [fst snd] in Hf. destruct r as [| | | | | |r]; try contradiction.
      destruct (truthy _); [contradiction|].
      destruct Hf as [Hf|[]]. discriminate Hf.
  - intros [Hs Hd]. exists (pk, JDict item). split; [exact Hitem|].
    cbn [fst snd]. rewrite in_flat_map. exists (mk, JDict op).
    split; [exact Hop|]. cbn [fst snd]. unfold operation_findings, is_method.
    rewrite Hmeth, Hs, Hd. cbn [orb]. apply in_or_app. left. now left.
Qed.

(** [walk tac] proves [Forall P (findings_of_check c spec)] by going
    through the findings of every check, [tac] proving [P] of each. *)
Ltac leaf tac :=
  first [apply Forall_nil | apply Forall_cons; [tac|apply Forall_nil]].

Ltac walk tac :=
  match goal with
  | |- Forall _ (findings_of_check ?c ?spec) =>
      destruct c; cbn [findings_of_check];
      [ unfold openapi_findings;
        destruct (dict_get "openapi" spec) as [?v|];
          [destruct (supported (PyRepr.str v))|]; leaf tac
      | unfold info_findings;
        destruct (dict_get_or_none "info" spec) as [| | | | | |?d];
          try leaf tac;
        destruct (truthy (dict_get_or_none "title" d)); leaf tac
      | unfold paths_present_findings;
        destruct (dict_get "paths" spec); leaf tac
      | destruct (dict_get_or_empty "paths" spec) as [| | | | | |?ps];
          try apply Forall_nil;
        apply Forall_flat_map; intros [?pk ?item] _; cbn [fst snd];
        destruct item as [| | | | | |?it]; try apply Forall_nil;
        apply Forall_flat_map; intros ?mk _;
        destruct (PyStr.mem mk NON_METHOD_KEYS || is_method mk); leaf tac
      | unfold info_description_findings;
        destruct (dict_get_or_none "info" spec) as [| | | | | |?d];
          try apply Forall_nil;
        destruct (truthy (dict_get_or_none "description" d)); leaf tac
      | destruct (dict_get_or_empty "paths" spec) as [| | | | | |?ps];
          try apply Forall_nil;
        apply Forall_flat_map; intros [?pk ?item] _; cbn [fst snd];
        destruct item as [| | | | | |?it]; try apply Forall_nil;
        apply Forall_flat_map; intros [?mk ?op] _; cbn [fst snd];
        unfold operation_findings; destruct (is_method mk);
          [|apply Forall_nil];
        destruct op as [| | | | | |?op]; try apply Forall_nil;
        apply Forall_app; split;
          [ destruct (truthy (dict_get_or_none "summary" op)
                      || truthy (dict_get_or_none "description" op)); leaf tac
          | unfold response_findings;
            destruct (dict_get_or_empty "responses" op) as [| | | | | |?rs];
              try apply Forall_nil;
            apply Forall_flat_map; intros [?code ?r] _; cbn [fst snd];
            destruct r as [| | | | | |?r]; try apply Forall_nil;
            destruct (truthy (dict_get_or_none "description" r)); leaf tac ]
      | unfold naming_findings;
        destruct (dict_get_or_empty "paths" spec) as [| | | | | |?ps];
          try apply Forall_nil;
        destruct (list_truthy (fst (classify_paths (map fst ps)))
                  && list_truthy (snd (classify_paths (map fst ps))));
          leaf tac
      | unfold unused_findings; apply Forall_flat_map; intros ?name _;
        destruct (set_mem_str (ref_string name) (collected (JDict spec)));
          leaf tac ]
  end.

Lemma findings_of_check_severity c spec :
  Forall (fun f => severity f = severity_of_check c) (findings_of_check c spec).
Proof. walk reflexivity. Qed.

Lemma findings_of_check_response_message c spec :
  Forall (fun f => message f = "Response is missing 'description'" ->
                   c = ByOperations)
         (findings_of_check c spec).
Proof. walk ltac:(first [intros _; reflexivity | intros E; discriminate E]). Qed.

Lemma In_all_findings_some spec f :
  In f (all_findings spec) <-> exists c, In f (findings_of_check c spec).
Proof.
  rewrite all_findings_by_check. rewrite !in_app_iff. split.
  - intros H. repeat (destruct H as [H|H]; [eexists; exact H|]).
    eexists; exact H.
  - intros [[] H]; tauto.
Qed.

(** X6: the response check.  In a document whose [paths] is an
    object, the findings with the message of the response check are
    exactly the warnings at
    [paths.<pathKey>.<methodKey>.responses.<statusCode>] for the
    entries of an object [responses] of an operation that are objects
    with no truthy [description]; a [responses] or a response that is
    not an object gives none. *)
Theorem response_description_check (spec ps : dict) (fs : list Finding)
    (f : Finding) :
  dict_get "paths" spec = Some (JDict ps) ->
  run spec = Ok fs ->
  (In f fs /\ message f = "Response is missing 'description'"
   <-> exists pk item mk op rs code r,
         In (pk, JDict item) ps
         /\ In (mk, JDict op) item
         /\ PyStr.mem (PyStr.lower mk) VALID_HTTP_METHODS = true
         /\ dict_get "responses" op = Some (JDict rs)
         /\ In (code, JDict r) rs
         /\ truthy (dict_get_or_none "description" r) = false
         /\ f = mkFinding "warning"
                  (("paths." ++ pk ++ "." ++ mk) ++ ".responses." ++ code)
                  "Response is missing 'description'").
Proof.
  intros Hp Hrun. apply run_Ok in Hrun. subst fs. split.
  - intros [Hin Hmsg].
    apply In_all_findings_some in Hin. destruct Hin as [c Hin].
    pose proof (findings_of_check_response_message c spec) as Hc.
    rewrite Forall_forall in Hc. specialize (Hc _ Hin Hmsg). subst c.
    cbn [findings_of_check] in Hin. unfold dict_get_or_empty in Hin.
    rewrite Hp in Hin. cbn [operations_findings] in Hin.
    rewrite in_flat_map in Hin. destruct Hin as [[pk item] [Hitem Hin]].
    cbn [fst snd] in Hin. destruct item as [| | | | | |it]; try contradiction.
    rewrite in_flat_map in Hin. destruct Hin as [[mk op] [Hop Hin]].
    cbn [fst snd] in Hin. unfold operation_findings in Hin.
    destruct (is_method mk) eqn:Hmeth; [|contradiction].
    destruct op as [| | | | | |o]; try contradiction.
    apply in_app_or in Hin. destruct Hin as [Hin|Hin].
    + destruct (truthy _ || truthy _); [contradiction|].
      destruct Hin as [<-|[]]. discriminate Hmsg.
    + unfold response_findings, dict_get_or_empty in Hin.
      destruct (dict_get "responses" o) as [[| | | | | |rs]|] eqn:Hrs;
        try contradiction.
      rewrite in_flat_map in Hin. destruct Hin as [[code r] [Hr Hin]].
      cbn [fst snd] in Hin. destruct r as [| | | | | |r]; try contradiction.
      destruct (truthy (dict_get_or_none "description" r)) eqn:Hd;
        [contradiction|].
      destruct Hin as [<-|[]].
      exists pk, it, mk, o, rs, code, r. repeat split; assumption.
  - intros (pk & item & mk & op & rs & code & r
            & Hitem & Hop & Hmeth & Hrs & Hr & Hd & ->).
    split; [|reflexivity].
    apply (In_all_findings ByOperations).
    { change (("paths." ++ pk ++ "." ++ mk) ++ ".responses." ++ code)
        with ("paths." ++ ((pk ++ "." ++ mk) ++ ".responses." ++ code)).
      apply check_of_paths_dot. }
    cbn [findings_of_check]. unfold dict_get_or_empty. rewrite Hp.
    cbn [operations_findings]. rewrite in_flat_map.
    exists (pk, JDict item). split; [exact Hitem|]. cbn [fst snd].
    rewrite in_flat_map. exists (mk, JDict op). split; [exact Hop|].
    cbn [fst snd]. unfold operation_findings, is_method. rewrite Hmeth.
    apply in_or_app. right. unfold response_findings, dict_get_or_empty.
    rewrite Hrs. rewrite in_flat_map. exists (code, JDict r).
    split; [exact Hr|]. cbn [fst snd]. rewrite Hd. now left.
Qed.

(** ** Severities *)

Lemma filter_severity s s' (l : list Finding) :
  Forall (fun f => severity f = s) l ->
  filter (fun f => String.eqb (severity f) s') l
  = if String.eqb s s' then l else [].
Proof.
  intros H. induction H as [|f l Hf _ IH]; cbn [filter].
  - now destruct (String.eqb s s').
  - rewrite Hf, IH. now destruct (String.eqb s s').
Qed.

Lemma all_findings_split spec :
  errors_of (all_findings spec)
  = (findings_of_check ByVersion spec ++ findings_of_check ByInfo spec
     ++ findings_of_check ByPathsPresent spec
     ++ findings_of_check ByMethods spec)%list
  /\ warnings_of (all_findings spec)
     = (findings_of_check ByInfoDescription spec
        ++ findings_of_check ByOperations spec
        ++ findings_of_check ByNaming spec
        ++ findings_of_check ByUnused spec)%list.
Proof.
  unfold errors_of, warnings_of. rewrite all_findings_by_check.
  rewrite !filter_app.
  rewrite !(filter_severity _ _ _ (findings_of_check_severity ByVersion spec)),
    !(filter_severity _ _ _ (findings_of_check_severity ByInfo spec)),
    !(filter_severity _ _ _ (findings_of_check_severity ByPathsPresent spec)),
    !(filter_severity _ _ _ (findings_of_check_severity ByMethods spec)),
    !(filter_severity _ _ _ (findings_of_check_severity ByInfoDescription spec)),
    !(filter_severity _ _ _ (findings_of_check_severity ByOperations spec)),
    !(filter_severity _ _ _ (findings_of_check_severity ByNaming spec)),
    !(filter_severity _ _ _ (findings_of_check_severity ByUnused spec)).
  cbn [severity_of_check].
  change (String.eqb "error" "error") with true.
  change (String.eqb "warning" "warning") with true.
  change (String.eqb "error" "warning") with false.
  change (String.eqb "warning" "error") with false.
  cbn [app]. now rewrite !app_nil_r.
Qed.

Lemma all_findings_partition spec :
  all_findings spec
  = (errors_of (all_findings spec) ++ warnings_of (all_findings spec))%list.
Proof.
  destruct (all_findings_split spec) as [He Hw]. rewrite He, Hw.
  rewrite all_findings_by_check. now rewrite <- !app_assoc.
Qed.

(** X7: every finding of the engine has severity [error] or
    [warning], and the errors come first: the findings are the errors,
    in order, followed by the warnings, in order. *)
Theorem errors_before_warnings (spec : dict) (fs : list Finding) :
  run spec = Ok fs ->
  fs = (errors_of fs ++ warnings_of fs)%list
  /\ Forall (fun f => severity f = "error") (errors_of fs)
  /\ Forall (fun f => severity f = "warning") (warnings_of fs).
Proof.
  intros Hrun. apply run_Ok in Hrun. subst fs.
  split; [apply all_findings_partition|].
  destruct (all_findings_split spec) as [He Hw]. rewrite He, Hw. split.
  - repeat (apply Forall_app; split);
      match goal with
      | |- Forall _ (findings_of_check ?c _) =>
          exact (findings_of_check_severity c spec)
      end.
  - repeat (apply Forall_app; split);
      match goal with
      | |- Forall _ (findings_of_check ?c _) =>
          exact (findings_of_check_severity c spec)
      end.
Qed.

(** ** The reference collector *)

Lemma forallb_false_exists {A} (p : A -> bool) l :
  forallb p l = false -> exists x, In x l /\ p x = false.
Proof.
  induction l as [|x l IH]; cbn [forallb]; [discriminate|].
  destruct (p x) eqn:E; cbn [andb].
  - intros H. destruct (IH H) as [y [Hy Hp]]. exists y. split; [now right|exact Hp].
  - intros _. exists x. split; [now left|exact E].
Qed.

Lemma forallb_In_false {A} (p : A -> bool) l x :
  In x l -> p x = false -> forallb p l = false.
Proof.
  intros Hin Hp. destruct (forallb p l) eqn:E; [|reflexivity].
  rewrite forallb_forall in E. rewrite (E x Hin) in Hp. discriminate.
Qed.

Lemma refs_hashable_false obj :
  refs_hashable obj = false <-> unhashable_ref obj.
Proof.
  split.
  - induction obj as [| | | | |l IH|d IH] using value_ind;
      cbn [refs_hashable]; try discriminate.
    + intros H. apply forallb_false_exists in H. destruct H as [v [Hin Hv]].
      rewrite Forall_forall in IH.
      exact (unhashable_ref_item l v Hin (IH v Hin Hv)).
    + intros H. apply andb_false_iff in H. destruct H as [H|H].
      * destruct (dict_get "$ref" d) as [r|] eqn:E; [|discriminate].
        apply negb_false_iff in H. exact (unhashable_ref_here d r E H).
      * apply forallb_false_exists in H. destruct H as [[k v] [Hin Hv]].
        rewrite Forall_forall in IH.
        exact (unhashable_ref_value d k v Hin (IH _ Hin Hv)).
  - intros H. induction H as [d r E Hr|d k v Hin _ IH|l v Hin _ IH];
      cbn [refs_hashable].
    + rewrite E, Hr. reflexivity.
    + apply andb_false_iff. right.
      exact (forallb_In_false _ d (k, v) Hin IH).
    + exact (forallb_In_false _ l v Hin IH).
Qed.

(** X8: the collector raises [TypeError], and nothing else, exactly
    on a value in which some object reached by the traversal has a list
    or an object as its [$ref] value; on every other value it
    returns. *)
Theorem collect_schema_refs_raises (obj : value) (refs : option pyset) :
  (collect_schema_refs obj refs = Raise TypeError <-> unhashable_ref obj)
  /\ ((exists idx, collect_schema_refs obj refs = Ok idx)
      <-> ~ unhashable_ref obj)
  /\ collect_schema_refs obj refs <> Raise KeyError.
Proof.
  rewrite collect_schema_refs_closed, <- refs_hashable_false.
  destruct (refs_hashable obj); repeat split; try discriminate;
    try (intros; reflexivity).
  - intros _. eexists. reflexivity.
  - intros [idx H]. discriminate H.
  - intros H. now contradiction H.
Qed.

Lemma collected_has_ref t obj :
  In (JStr t) (collected obj) -> has_ref t obj = true.
Proof.
  induction obj as [| | | | |l IH|d IH] using value_ind;
    cbn [has_ref collected]; try contradiction.
  - rewrite existsb_exists, in_flat_map. rewrite Forall_forall in IH.
    intros [y [Hy H]]. exists y. split; [exact Hy|]. now apply IH.
  - rewrite orb_true_iff, existsb_exists, in_app_iff, in_flat_map.
    rewrite Forall_forall in IH. intros [H|[[k v] [Hin H]]].
    + left. destruct (dict_get "$ref" d) as [r|]; [|contradiction].
      destruct H as [->|[]]. apply String.eqb_refl.
    + right. exists (k, v). split; [exact Hin|]. exact (IH _ Hin H).
Qed.

(** X9: when the collector returns, a string is in the set it built
    exactly when, somewhere in the value, an object has that string as
    its [$ref] value. *)
Theorem collect_schema_refs_membership (obj : value) (idx : pyset) :
  collect_schema_refs obj None = Ok idx ->
  forall t, set_mem_str t idx = true <-> has_ref t obj = true.
Proof.
  rewrite collect_schema_refs_closed.
  destruct (refs_hashable obj); [|discriminate].
  intros [= <-] t. cbn [refs_or_new app]. rewrite set_mem_str_In. split.
  - apply collected_has_ref.
  - apply has_ref_collected.
Qed.

Lemma collected_hashable obj :
  refs_hashable obj = true ->
  Forall (fun v => unhashable v = false) (collected obj).
Proof.
  induction obj as [| | | | |l IH|d IH] using value_ind;
    cbn [refs_hashable collected]; intros H; try apply Forall_nil.
  - rewrite forallb_forall in H. rewrite Forall_forall in IH.
    apply Forall_flat_map. intros v Hin. exact (IH v Hin (H v Hin)).
  - apply andb_true_iff in H. destruct H as [Hr H].
    rewrite forallb_forall in H. rewrite Forall_forall in IH.
    apply Forall_app. split.
    + destruct (dict_get "$ref" d) as [r|]; [|apply Forall_nil].
      apply negb_true_iff in Hr. now repeat constructor.
    + apply Forall_flat_map. intros [k v] Hin. exact (IH _ Hin (H _ Hin)).
Qed.

(** X10: the set passed to the collector is only extended.  A call on
    a set returns that set followed by what a call with no set returns,
    and nothing the collector adds is a list or an object. *)
Theorem collect_schema_refs_extends (obj : value) (refs idx : pyset) :
  collect_schema_refs obj (Some refs) = Ok idx ->
  exists added,
    collect_schema_refs obj None = Ok added
    /\ idx = (refs ++ added)%list
    /\ Forall (fun v => unhashable v = false) added.
Proof.
  rewrite !collect_schema_refs_closed.
  destruct (refs_hashable obj) eqn:E; [|discriminate].
  intros [= <-]. exists (collected obj). cbn [refs_or_new app].
  repeat split. now apply collected_hashable.
Qed.

(** X11: when [validate_spec] returns.  A call returns exactly when
    [components.schemas] is not a non-empty object or no object of the
    document has a list or an object as its [$ref] value; otherwise it
    raises [TypeError]; it never raises [KeyError]. *)
Theorem validate_spec_returns_iff (spec : dict) :
  ((exists fs, run spec = Ok fs)
   <-> schemas_of spec = [] \/ ~ unhashable_ref (JDict spec))
  /\ (run spec = Raise TypeError
      <-> schemas_of spec <> [] /\ unhashable_ref (JDict spec))
  /\ run spec <> Raise KeyError.
Proof.
  rewrite run_closed. unfold returns. rewrite <- refs_hashable_false.
  destruct (schemas_of spec) as [|kv ss]; cbn [list_truthy negb orb].
  - repeat split; try discriminate.
    + intros _. now left.
    + intros _. eexists. reflexivity.
    + intros [H _]. now contradiction H.
  - destruct (refs_hashable (JDict spec)); repeat split; try discriminate.
    + intros _. right. discriminate.
    + intros _. eexists. reflexivity.
    + intros [_ H]. discriminate H.
    + intros [idx H]. discriminate H.
    + intros [H|H]; [discriminate H|now contradiction H].
Qed.

(** ** Path-naming heuristics *)

Lemma search_lower_upper_cons c t :
  PyStr.search_lower_upper t = true ->
  PyStr.search_lower_upper (String c t) = true.
Proof.
  intros H. destruct t as [|b t]; [discriminate H|].
  cbn [PyStr.search_lower_upper] in *. rewrite H. apply orb_true_r.
Qed.

Lemma search_lower_upper_spec s :
  PyStr.search_lower_upper s = true
  <-> exists pre a b post,
        s = pre ++ String a (String b post)
        /\ PyStr.is_lower a = true /\ PyStr.is_upper b = true.
Proof.
  split.
  - induction s as [|a s IH]; [discriminate|].
    destruct s as [|b s]; [discriminate|].
    cbn [PyStr.search_lower_upper]. intros H.
    apply orb_true_iff in H. destruct H as [H|H].
    + apply andb_true_iff in H. exists "", a, b, s. now split.
    + destruct (IH H) as (pre & x & y & post & E & Hx & Hy).
      exists (String a pre), x, y, post. cbn [append]. rewrite E.
      now split.
  - intros (pre & a & b & post & -> & Ha & Hb).
    induction pre as [|c pre IH]; cbn [append].
    + cbn [PyStr.search_lower_upper]. now rewrite Ha, Hb.
    + now apply search_lower_upper_cons.
Qed.

(** X12: what [is_camel_case] recognises.  A segment is camelCase
    exactly when it does not start with an opening brace and has,
    somewhere, an ASCII lowercase letter immediately followed by an
    ASCII uppercase letter; so [Users], [USERS] and [{userId}] are
    not. *)
Theorem is_camel_case_spec (segment : string) :
  is_camel_case segment = true
  <-> PyStr.startswith segment "{" = false
      /\ exists pre a b post,
           segment = pre ++ String a (String b post)
           /\ PyStr.is_lower a = true /\ PyStr.is_upper b = true.
Proof.
  rewrite <- search_lower_upper_spec. unfold is_camel_case.
  destruct segment as [|c s].
  - cbn. split; [discriminate|intros [_ H]; discriminate H].
  - cbn [PyStr.nonempty negb orb].
    destruct (PyStr.startswith (String c s) "{"); split.
    + discriminate.
    + intros [H _]. discriminate H.
    + intros H. now split.
    + intros [_ H]. exact H.
Qed.

(** X13: the two lists of the naming check.  No path key is filed
    under both camelCase and snake_case, and a path key of the document
    is filed under one of them exactly when one of its remaining
    segments has a camelCase hump or an underscore. *)
Theorem classify_paths_exclusive (path_keys : list string) (pk : string) :
  ~ (In pk (fst (classify_paths path_keys))
     /\ In pk (snd (classify_paths path_keys)))
  /\ (In pk (fst (classify_paths path_keys))
      \/ In pk (snd (classify_paths path_keys))
      <-> In pk path_keys
          /\ existsb (fun seg => PyStr.search_lower_upper seg
                                 || PyStr.contains_char "_" seg)
                     (path_segments pk) = true).
Proof.
  rewrite classify_paths_filter. cbn [fst snd]. rewrite !filter_In.
  unfold camel_path, snake_path, first_styled.
  fold styled.
  destruct (find styled (path_segments pk)) as [seg|] eqn:E.
  - assert (Hex : existsb styled (path_segments pk) = true).
    { apply existsb_exists. exists seg.
      apply find_some in E. exact E. }
    rewrite Hex. destruct (PyStr.search_lower_upper seg); cbn [negb];
      split; try tauto.
    + intros [[_ _] [_ H]]. discriminate H.
    + intros [[_ H] _]. discriminate H.
  - assert (Hex : existsb styled (path_segments pk) = false).
    { destruct (existsb styled (path_segments pk)) eqn:Hx; [|reflexivity].
      apply existsb_exists in Hx. destruct Hx as [seg [Hin Hs]].
      rewrite (find_none _ _ E seg Hin) in Hs. discriminate Hs. }
    rewrite Hex. split.
    + intros [[_ H] _]. discriminate H.
    + split; [intros [[_ H]|[_ H]]; discriminate H|intros [_ H]; discriminate H].
Qed.

(** ** Strict mode *)

(** X14: strict mode changes a list exactly when it has a warning,
    and promoting twice is promoting once. *)
Theorem promote_fixed_point (findings : list Finding) :
  (promote findings = findings <-> warnings_of findings = [])
  /\ promote (promote findings) = promote findings.
Proof.
  split.
  - induction findings as [|f fs IH]; [split; reflexivity|].
    rewrite promote_cons. unfold warnings_of in *. cbn [filter].
    destruct (String.eqb_spec (severity f) "warning") as [E|E].
    + split; [|discriminate].
      intros H. injection H as H _. destruct f as [sev pa msg].
      cbn [severity path message] in *. subst sev. discriminate H.
    + split.
      * intros H. injection H as H. now apply IH.
      * intros H. f_equal. now apply IH.
  - induction findings as [|f fs IH]; [reflexivity|].
    rewrite !promote_cons, IH.
    destruct (String.eqb (severity f) "warning") eqn:E; cbn [severity].
    + reflexivity.
    + now rewrite E.
Qed.

(** ** The command line *)

Lemma find_snoc {A} (p : A -> bool) l a :
  find p (l ++ [a])
  = match find p l with
    | Some x => Some x
    | None => if p a then Some a else None
    end.
Proof.
  induction l as [|x l IH]; cbn [app find]; [reflexivity|].
  destruct (p x); [reflexivity|exact IH].
Qed.

Lemma prefix_split p s :
  String.prefix p s = true -> exists rest, s = p ++ rest.
Proof.
  revert s. induction p as [|c p IH]; intros s H.
  - now exists s.
  - destruct s as [|d s]; [discriminate H|]. cbn [String.prefix] in H.
    destruct (ascii_dec c d) as [<-|_]; [|discriminate H].
    destruct (IH _ H) as [rest ->]. now exists rest.
Qed.

Lemma parse_arg_cases o arg :
  exists o',
    parse_arg o arg = Some o'
    /\ strict o' = (strict o || String.eqb arg "--strict")%bool
    /\ filepath o' = (if positional arg then Some arg else filepath o)
    /\ (if format_arg arg then arg = "--format=" ++ output_format o'
        else output_format o' = output_format o).
Proof.
  unfold parse_arg, positional, format_arg.
  destruct (String.eqb_spec arg "--strict") as [->|_].
  { eexists. split; [reflexivity|]. cbn. now rewrite orb_true_r. }
  rewrite orb_false_r.
  destruct (PyStr.startswith arg "--format=") eqn:Ef.
  { destruct (prefix_split _ _ Ef) as [fmt ->].
    eexists. split; [reflexivity|]. cbn. repeat split. }
  destruct (PyStr.startswith arg "-"); eexists; (split; [reflexivity|]);
    cbn; repeat split.
Qed.

Lemma parse_args_from_spec args :
  forall o0, exists o,
    parse_args_from o0 args = Some o
    /\ strict o
       = (strict o0 || existsb (fun a => String.eqb a "--strict") args)%bool
    /\ filepath o
       = match find positional (rev args) with
         | Some a => Some a
         | None => filepath o0
         end
    /\ match find format_arg (rev args) with
       | Some a => a = "--format=" ++ output_format o
       | None => output_format o = output_format o0
       end.
Proof.
  induction args as [|a rest IH]; intros o0.
  - exists o0. cbn. now rewrite orb_false_r.
  - destruct (parse_arg_cases o0 a) as (o1 & E1 & Hs1 & Hf1 & Hfmt1).
    destruct (IH o1) as (o & E & Hs & Hf & Hfmt).
    exists o. cbn [parse_args_from]. rewrite E1. split; [exact E|].
    cbn [rev existsb]. rewrite !find_snoc. split; [|split].
    + rewrite Hs, Hs1. now rewrite orb_assoc.
    + rewrite Hf. destruct (find positional (rev rest)); [reflexivity|].
      rewrite Hf1. now destruct (positional a).
    + destruct (find format_arg (rev rest)); [exact Hfmt|].
      destruct (format_arg a); congruence.
Qed.

(** X15: what the argument loop keeps.  The loop never fails;
    [strict] is set exactly when [--strict] is among the arguments; the
    file path is the last argument that does not start with [-], if
    any; the output format is what follows [--format=] in the last
    argument that starts with it, and [text] when there is none. *)
Theorem parse_args_spec (args : list string) :
  exists o,
    parse_args args = Some o
    /\ strict o = existsb (fun a => String.eqb a "--strict") args
    /\ filepath o = find (fun a => negb (PyStr.startswith a "-")) (rev args)
    /\ match find (fun a => PyStr.startswith a "--format=") (rev args) with
       | Some a => a = "--format=" ++ output_format o
       | None => output_format o = "text"
       end.
Proof.
  destruct (parse_args_from_spec args (mkOptions None "text" false))
    as (o & E & Hs & Hf & Hfmt).
  exists o. split; [exact E|]. split; [exact Hs|]. split; [|exact Hfmt].
  rewrite Hf. fold positional. now destruct (find positional (rev args)).
Qed.

Lemma parse_args_some args :
  exists o,
    parse_args args = Some o
    /\ filepath o = find positional (rev args)
    /\ match find format_arg (rev args) with
       | Some a => a = "--format=" ++ output_format o
       | None => output_format o = "text"
       end.
Proof.
  destruct (parse_args_from_spec args (mkOptions None "text" false))
    as (o & E & _ & Hf & Hfmt).
  exists o. split; [exact E|]. split; [|exact Hfmt].
  rewrite Hf. now destruct (find positional (rev args)).
Qed.

Lemma print_lines_spec enc lines :
  snd (print_lines enc lines) = forallb enc lines
  /\ Forall (fun e => is_stderr e = false /\ is_stdout_json e = false)
       (fst (print_lines enc lines))
  /\ (forallb enc lines = true ->
      fst (print_lines enc lines) = map Stdout lines).
Proof.
  induction lines as [|l rest IH]; cbn [print_lines forallb map].
  - repeat split. constructor.
  - destruct (enc l); cbn [andb]; [|repeat split; [constructor|discriminate]].
    destruct (print_lines enc rest) as [written ok]. cbn [fst snd] in *.
    destruct IH as (Hok & Hev & Hall). split; [exact Hok|]. split.
    + constructor; [now split|exact Hev].
    + intros H. now rewrite (Hall H).
Qed.

Lemma forallb_through_map {A B} (p : B -> bool) (g : A -> B) l :
  forallb p (map g l) = forallb (fun x => p (g x)) l.
Proof.
  induction l as [|x l IH]; [reflexivity|]. cbn [map forallb].
  now rewrite IH.
Qed.

Lemma render_spec enc fmt findings errors warnings :
  snd (render enc fmt findings errors warnings)
  = (String.eqb fmt "json" || forallb (fun f => enc (to_text f)) findings)%bool
  /\ Forall (fun e => is_stderr e = false)
       (fst (render enc fmt findings errors warnings))
  /\ (String.eqb fmt "json" = false ->
      Forall (fun e => is_stdout_json e = false)
        (fst (render enc fmt findings errors warnings)))
  /\ (snd (render enc fmt findings errors warnings) = true ->
      fst (render enc fmt findings errors warnings) <> []).
Proof.
  unfold render. destruct (String.eqb fmt "json"); cbn [orb].
  { repeat split; [now repeat constructor|discriminate|discriminate]. }
  destruct findings as [|f fs]; cbn [list_truthy negb].
  { repeat split; [now repeat constructor|now repeat constructor
                  |discriminate]. }
  destruct (print_lines_spec enc (map to_text (f :: fs)))
    as (Hok & Hev & Hall).
  rewrite forallb_through_map in Hok.
  destruct (print_lines enc (map to_text (f :: fs))) as [written ok].
  cbn [fst snd] in *. subst ok.
  assert (Hev1 : Forall (fun e => is_stderr e = false) written).
  { eapply Forall_impl; [|exact Hev]. now intros e [H _]. }
  assert (Hev2 : Forall (fun e => is_stdout_json e = false) written).
  { eapply Forall_impl; [|exact Hev]. now intros e [_ H]. }
  destruct (forallb (fun f0 => enc (to_text f0)) (f :: fs)); cbn [fst snd].
  - repeat split.
    + apply Forall_app. split; [exact Hev1|now repeat constructor].
    + intros _. apply Forall_app. split; [exact Hev2|now repeat constructor].
    + intros _ H. symmetry in H. now apply app_cons_not_nil in H.
  - repeat split; [exact Hev1|now intros _|discriminate].
Qed.

Lemma report_Ok enc spec fmt st fs :
  run spec = Ok fs ->
  report enc spec fmt st =
  mkProcess
    (fst (render enc fmt (if st then promote fs else fs)
            (errors_of (if st then promote fs else fs))
            (warnings_of (if st then promote fs else fs))))
    (if snd (render enc fmt (if st then promote fs else fs)
               (errors_of (if st then promote fs else fs))
               (warnings_of (if st then promote fs else fs)))
     then SysExit (if list_truthy (errors_of (if st then promote fs else fs))
                   then 1 else 0)
     else UncaughtOther).
Proof.
  intros H. unfold report. rewrite H.
  now destruct (render enc fmt _ _ _).
Qed.

(** X16: how [main] ends.  It exits with 0, 1 or 2, or dies of an
    exception of the reader, the decoder or [print] it has no handler
    for, or of the engine's [TypeError]; the subscript of the argument
    loop never fails.  With exit code 2 it has written one line to the
    error stream and nothing else; with exit code 0 or 1 it has written
    to the output stream only, and something; when it dies of an
    exception it has written nothing to the error stream, and nothing
    at all when the exception is the engine's. *)
Theorem main_exit_discipline (read_file : string -> read_result)
    (json_loads : string -> loads_result)
    (stdout_encodes : string -> bool) (args : list string) :
  match final (main read_file json_loads stdout_encodes args) with
  | SysExit code =>
      (code = 2%Z
       /\ exists text,
            trace (main read_file json_loads stdout_encodes args)
            = [Stderr text])
      \/ ((code = 0%Z \/ code = 1%Z)
          /\ trace (main read_file json_loads stdout_encodes args) <> []
          /\ Forall (fun e => is_stderr e = false)
               (trace (main read_file json_loads stdout_encodes args)))
  | UncaughtIndexError => False
  | UncaughtOther =>
      Forall (fun e => is_stderr e = false)
        (trace (main read_file json_loads stdout_encodes args))
  | Uncaught e =>
      e = TypeError
      /\ trace (main read_file json_loads stdout_encodes args) = []
  end.
Proof.
  unfold main. destruct (parse_args_some args) as (o & -> & _ & _).
  destruct (filepath o) as [file|];
    [|left; split; [reflexivity|eexists; reflexivity]].
  destruct (PyStr.nonempty file); cbn [negb];
    [|left; split; [reflexivity|eexists; reflexivity]].
  destruct (read_file file) as [|e| |raw];
    try (left; split; [reflexivity|eexists; reflexivity]);
    [constructor|].
  destruct (json_loads raw) as [e| |[| | | | | |spec]];
    try (left; split; [reflexivity|eexists; reflexivity]);
    [constructor|].
  destruct (run spec) as [fs|e] eqn:Hrun.
  - rewrite (report_Ok _ _ _ _ _ Hrun). cbn [final trace].
    destruct (render_spec stdout_encodes (output_format o)
                (if strict o then promote fs else fs)
                (errors_of (if strict o then promote fs else fs))
                (warnings_of (if strict o then promote fs else fs)))
      as (_ & Hev & _ & Hne).
    destruct (snd (render _ _ _ _ _)); [|exact Hev].
    right. split; [|split; [now apply Hne|exact Hev]].
    destruct (list_truthy _); auto.
  - unfold report. rewrite Hrun. cbn [final trace].
    split; [|reflexivity]. now apply run_raises in Hrun.
Qed.

Lemma length_errors_promote spec :
  List.length (errors_of (promote (all_findings spec)))
  = List.length (all_findings spec).
Proof.
  rewrite promote_error_count.
  pose proof (f_equal (@List.length Finding) (all_findings_partition spec)) as H.
  rewrite length_app in H. now rewrite <- H.
Qed.

Lemma list_truthy_length {A B} (l : list A) (l' : list B) :
  List.length l = List.length l' -> list_truthy l = list_truthy l'.
Proof. destruct l, l'; cbn; intros H; try reflexivity; discriminate H. Qed.

(** X17: how [main] ends after validation.  When the file is read and
    decodes to an object and the engine returns, [main] dies of the
    exception of [print] if the format is not [json] and the line of
    some finding cannot be written to the standard output; otherwise it
    exits with 1 if the engine made an error finding, or, under
    [--strict], any finding at all, and with 0 if not. *)
Theorem main_exit_code (read_file : string -> read_result)
    (json_loads : string -> loads_result)
    (stdout_encodes : string -> bool) (args : list string)
    (o : options) (file raw : string) (spec : dict) (fs : list Finding) :
  parse_args args = Some o ->
  filepath o = Some file ->
  file <> "" ->
  read_file file = FileContent raw ->
  json_loads raw = Loaded (JDict spec) ->
  run spec = Ok fs ->
  final (main read_file json_loads stdout_encodes args)
  = if negb (String.eqb (output_format o) "json")
       && negb (forallb (fun f => stdout_encodes (to_text f))
                        (if strict o then promote fs else fs))
    then UncaughtOther
    else SysExit (if strict o
                  then (if list_truthy fs then 1 else 0)
                  else (if existsb (fun f => String.eqb (severity f) "error")
                                   fs
                        then 1 else 0)).
Proof.
  intros Hargs Hfile Hne Hread Hloads Hrun.
  unfold main. rewrite Hargs, Hfile.
  destruct file as [|c file]; [contradiction|]. cbn [PyStr.nonempty negb].
  rewrite Hread, Hloads, (report_Ok _ _ _ _ _ Hrun). cbn [final].
  destruct (render_spec stdout_encodes (output_format o)
              (if strict o then promote fs else fs)
              (errors_of (if strict o then promote fs else fs))
              (warnings_of (if strict o then promote fs else fs)))
    as (-> & _).
  apply run_Ok in Hrun. subst fs.
  destruct (String.eqb (output_format o) "json"); cbn [orb negb andb].
  - destruct (strict o).
    + now rewrite (list_truthy_length _ _ (length_errors_promote spec)).
    + unfold errors_of. now rewrite list_truthy_filter.
  - destruct (forallb _ _); cbn [negb]; [|reflexivity].
    destruct (strict o).
    + now rewrite (list_truthy_length _ _ (length_errors_promote spec)).
    + unfold errors_of. now rewrite list_truthy_filter.
Qed.

Lemma warnings_of_promote findings : warnings_of (promote findings) = [].
Proof.
  induction findings as [|f fs IH]; [reflexivity|].
  rewrite promote_cons. unfold warnings_of in *. cbn [filter].
  destruct (String.eqb (severity f) "warning") eqn:E; cbn [severity].
  - exact IH.
  - now rewrite E.
Qed.

(** X18: the structured report.  With the format [json], once the
    engine has returned, [main] prints one object: its [findings] list
    has one entry per finding of the engine, the two counts of its
    [summary] add up to the number of findings, the exit code is 0
    exactly when the error count is 0, and under strict mode the
    warning count is 0. *)
Theorem json_report_counts (stdout_encodes : string -> bool) (spec : dict)
    (st : bool) (fs : list Finding) :
  run spec = Ok fs ->
  exists (entries : list value) (e w code : Z),
    report stdout_encodes spec "json" st
    = mkProcess
        [StdoutJson
           (JDict [("findings", JList entries);
                   ("summary",
                    JDict [("errors", JInt e); ("warnings", JInt w)])])]
        (SysExit code)
    /\ List.length entries = List.length fs
    /\ (e + w)%Z = Z.of_nat (List.length fs)
    /\ (code = 0%Z <-> e = 0%Z)
    /\ (if st then w = 0%Z else True).
Proof.
  intros Hrun. rewrite (report_Ok _ _ _ _ _ Hrun).
  apply run_Ok in Hrun. subst fs.
  unfold render, json_result.
  cbn [String.eqb Ascii.eqb Bool.eqb andb fst snd].
  do 4 eexists. split; [reflexivity|].
  split; [|split; [|split]].
  - rewrite length_map. destruct st; [apply length_map|reflexivity].
  - destruct st.
    + rewrite warnings_of_promote, length_errors_promote. cbn. lia.
    + pose proof (f_equal (@List.length Finding)
                    (all_findings_partition spec)) as H.
      rewrite length_app in H. lia.
  - destruct (errors_of _); cbn [list_truthy List.length]; split;
      first [reflexivity | discriminate | lia].
  - destruct st; [|exact I]. now rewrite warnings_of_promote.
Qed.

(** X19: any format other than [json] is the text format.  Unless
    the last [--format=] argument is exactly [--format=json], [main]
    prints no JSON object, whatever else it does. *)
Theorem main_text_unless_json (read_file : string -> read_result)
    (json_loads : string -> loads_result)
    (stdout_encodes : string -> bool) (args : list string) :
  find (fun a => PyStr.startswith a "--format=") (rev args)
  <> Some "--format=json" ->
  Forall (fun e => is_stdout_json e = false)
    (trace (main read_file json_loads stdout_encodes args)).
Proof.
  intros Hfmt. unfold main.
  destruct (parse_args_some args) as (o & -> & _ & Ho).
  assert (E : String.eqb (output_format o) "json" = false).
  { apply String.eqb_neq. intros Ej. fold format_arg in Hfmt.
    destruct (find format_arg (rev args)) as [a|].
    - apply Hfmt. now rewrite Ho, Ej.
    - rewrite Ej in Ho. discriminate Ho. }
  destruct (filepath o) as [file|]; [|now repeat constructor].
  destruct (PyStr.nonempty file); cbn [negb]; [|now repeat constructor].
  destruct (read_file file) as [|e| |raw]; try (now repeat constructor).
  destruct (json_loads raw) as [e| |[| | | | | |spec]];
    try (now repeat constructor).
  destruct (run spec) as [fs|e] eqn:Hrun.
  - rewrite (report_Ok _ _ _ _ _ Hrun). cbn [trace].
    now apply render_spec.
  - unfold report. rewrite Hrun. constructor.
Qed.

(** X20: the usage error.  [main] prints the usage line and exits
    with 2 exactly when no argument is a file path or the last one
    that could be is the empty string; an empty argument after the
    file path undoes it. *)
Theorem main_usage_iff (read_file : string -> read_result)
    (json_loads : string -> loads_result)
    (stdout_encodes : string -> bool) (args : list string) :
  main read_file json_loads stdout_encodes args
  = mkProcess
      [Stderr "Usage: validate.py <openapi-spec.json> [--format=text|json] [--strict]"]
      (SysExit 2)
  <-> find (fun a => negb (PyStr.startswith a "-")) (rev args) = None
      \/ find (fun a => negb (PyStr.startswith a "-")) (rev args) = Some "".
Proof.
  fold positional. unfold main.
  destruct (parse_args_some args) as (o & -> & <- & _).
  destruct (filepath o) as [file|]; [|split; [now left|reflexivity]].
  destruct file as [|c file]; cbn [PyStr.nonempty negb];
    [split; [now right|reflexivity]|].
  split; [|intros [H|H]; discriminate H].
  intros H. exfalso.
  destruct (read_file (String c file)) as [|e| |raw]; try discriminate H.
  destruct (json_loads raw) as [e| |[| | | | | |spec]]; try discriminate H.
  destruct (run spec) as [fs|e] eqn:Hrun.
  - rewrite (report_Ok _ _ _ _ _ Hrun) in H.
    apply (f_equal final) in H. cbn [final] in H.
    destruct (snd (render _ _ _ _ _)); [|discriminate H].
    destruct (list_truthy _); discriminate H.
  - unfold report in H. rewrite Hrun in H. discriminate H.
Qed.

(** X21: [No issues found.]  In the text format, once the engine has
    returned, [main] prints only that line and exits with 0 exactly
    when the engine made no finding, strict mode or not. *)
Theorem report_no_issues (stdout_encodes : string -> bool) (spec : dict)
    (fmt : string) (st : bool) (fs : list Finding) :
  run spec = Ok fs ->
  fmt <> "json" ->
  (report stdout_encodes spec fmt st
   = mkProcess [Stdout "No issues found."] (SysExit 0)
   <-> fs = []).
Proof.
  intros Hrun Hfmt. rewrite (report_Ok _ _ _ _ _ Hrun).
  apply String.eqb_neq in Hfmt. unfold render. rewrite Hfmt.
  destruct fs as [|f fs].
  - destruct st; split; reflexivity.
  - split; [|discriminate].
    assert (Hcons : exists g gs, (if st then promote (f :: fs) else f :: fs)
                                 = g :: gs).
    { destruct st; [rewrite promote_cons|]; eauto. }
    destruct Hcons as (g & gs & ->). cbn [list_truthy negb].
    destruct (print_lines_spec stdout_encodes (map to_text (g :: gs)))
      as (Hok & _ & Hall).
    destruct (print_lines stdout_encodes (map to_text (g :: gs)))
      as [written ok].
    cbn [fst snd] in *. destruct ok; cbn [fst snd]; [|discriminate].
    symmetry in Hok. rewrite (Hall Hok). cbn [map app].
    intros H. apply (f_equal trace) in H. cbn [trace] in H.
    apply (f_equal (@List.length event)) in H.
    cbn [List.length] in H. rewrite length_app in H.
    cbn [List.length] in H. lia.
Qed.

End Engine.

(** * The properties on concrete documents

    The documents below hold ASCII text only, so the table of printable
    characters plays no part in them; they are evaluated with the table
    that takes every character as printable. *)

#[export] Instance every_character_printable : Unicode :=
  {| isprintable := fun _ => true |}.

Arguments Ok {A} a.
Arguments Raise {A} e.

(** [repr] of strings under a table in which the no-break space, the
    surrogates and the language tag are not printable, strings being
    given by their bytes: [U+00A0] gives [\xa0], the lone surrogate
    [U+D800] gives [\ud800], [U+E0001] gives [\U000e0001], and
    [U+1F600] is kept, each between apostrophes. *)
Example repr_str_outside_ascii :
  map (fun bytes =>
         map nat_of_ascii
           (list_ascii_of_string
              (@PyRepr.repr_str
                 {| isprintable := fun cp =>
                      negb (N.eqb cp 160
                            || (N.leb 55296 cp && N.leb cp 57343)
                            || N.eqb cp 917505) |}
                 (string_of_list_ascii (map ascii_of_nat bytes)))))
    [[194; 160]; [237; 160; 128]; [243; 160; 128; 129];
     [240; 159; 152; 128]]
  = [[39; 92; 120; 97; 48; 39];
     [39; 92; 117; 100; 56; 48; 48; 39];
     [39; 92; 85; 48; 48; 48; 101; 48; 48; 48; 49; 39];
     [39; 240; 159; 152; 128; 39]].
Proof. reflexivity. Qed.

(** C2, as stated, fails: the first path has an underscore in its
    first segment and a camelCase second segment, so the engine files
    it under snake_case with the other path and stays silent, while
    the stated classification makes it camelCase and asks for the
    warning. *)
Lemma path_naming_as_stated_fails :
  ~ path_naming_as_stated mixed_segments_doc.
Proof.
  intros H.
  specialize (H _ _ eq_refl eq_refl).
  destruct H as [_ H]. specialize (H (conj eq_refl eq_refl)).
  discriminate H.
Qed.

Lemma openapi_version_check_witness :
  run [("openapi", JStr "2.0"); ("paths", JDict [])]
  = Ok [mkFinding "error" "openapi"
          "Unsupported OpenAPI version: 2.0 (expected 3.0.x or 3.1.x)";
        mkFinding "error" "info" "Missing required 'info' object"]
  /\ filter (fun f => String.eqb (path f) "openapi")
       [mkFinding "error" "openapi"
          "Unsupported OpenAPI version: 2.0 (expected 3.0.x or 3.1.x)";
        mkFinding "error" "info" "Missing required 'info' object"]
     = [mkFinding "error" "openapi"
          "Unsupported OpenAPI version: 2.0 (expected 3.0.x or 3.1.x)"].
Proof.
  split; [reflexivity|].
  exact (openapi_version_check
           [("openapi", JStr "2.0"); ("paths", JDict [])] _ eq_refl).
Defined.

Lemma version_coercion_witness :
  filter (fun f => String.eqb (path f) "openapi")
    [mkFinding "error" "info" "Missing required 'info' object";
     mkFinding "error" "paths" "Missing required 'paths' object"] = []
  /\ filter (fun f => String.eqb (path f) "openapi")
       [mkFinding "error" "openapi"
          "Unsupported OpenAPI version: None (expected 3.0.x or 3.1.x)";
        mkFinding "error" "info" "Missing required 'info' object";
        mkFinding "error" "paths" "Missing required 'paths' object"]
     = [mkFinding "error" "openapi"
          "Unsupported OpenAPI version: None (expected 3.0.x or 3.1.x)"].
Proof.
  exact (version_coercion
           [("openapi", JFloat (FFin false 3 1))] [("openapi", JNull)]
           _ _ eq_refl eq_refl eq_refl eq_refl).
Defined.

Lemma invalid_method_check_witness :
  In (mkFinding "error" "paths./x.Foo" "Invalid HTTP method: 'Foo'")
     [mkFinding "error" "openapi" "Missing required 'openapi' version field";
      mkFinding "error" "info" "Missing required 'info' object";
      mkFinding "error" "paths./x.Foo" "Invalid HTTP method: 'Foo'"]
  <-> PyStr.mem (PyStr.lower "Foo")
        ["get"; "put"; "post"; "delete"; "options"; "head"; "patch"; "trace"]
      = false.
Proof.
  apply (invalid_method_check
           [("paths", JDict [("/x", JDict [("parameters", JList []);
                                           ("GET", JNull);
                                           ("Foo", JNull)])])]
           [("/x", JDict [("parameters", JList []); ("GET", JNull);
                          ("Foo", JNull)])]
           "/x"
           [("parameters", JList []); ("GET", JNull); ("Foo", JNull)]
           "Foo").
  - reflexivity.
  - simpl. left. reflexivity.
  - simpl. right. right. left. reflexivity.
  - reflexivity.
  - reflexivity.
Defined.

Lemma path_naming_check_witness :
  filter is_naming_warning
    [mkFinding "error" "openapi" "Missing required 'openapi' version field";
     mkFinding "error" "info" "Missing required 'info' object";
     mkFinding "warning" "paths"
       "Inconsistent path naming: mix of camelCase and snake_case detected"]
  = [mkFinding "warning" "paths"
       "Inconsistent path naming: mix of camelCase and snake_case detected"].
Proof.
  exact (path_naming_check
           [("paths", JDict [("/getUser", JDict []); ("/get_user", JDict [])])]
           [("/getUser", JDict []); ("/get_user", JDict [])]
           _ eq_refl eq_refl).
Defined.

Lemma unused_schema_check_witness :
  exists idx : pyset,
    collect_schema_refs (JDict pet_toy_doc) None = Ok idx
    /\ (forall v, In v idx <-> In v (ref_index (JDict pet_toy_doc)))
    /\ (forall S, In S ["Pet"; "Toy"] ->
          ((exists f,
              In f [mkFinding "error" "openapi"
                      "Missing required 'openapi' version field";
                    mkFinding "error" "info" "Missing required 'info' object";
                    mkFinding "warning" "paths./pets.get"
                      "Operation is missing both 'summary' and 'description'";
                    mkFinding "warning" "components.schemas.Toy"
                      "Schema 'Toy' is defined but never referenced"]
              /\ severity f = "warning"
              /\ path f = "components.schemas." ++ S)
           <-> ~ In (JStr ("#/components/schemas/" ++ S)) idx)).
Proof.
  apply (unused_schema_check pet_toy_doc
           [("schemas", JDict [("Pet", JDict []); ("Toy", JDict [])])]
           [("Pet", JDict []); ("Toy", JDict [])]).
  - reflexivity.
  - reflexivity.
  - reflexivity.
  - discriminate.
  - reflexivity.
Defined.

Lemma reference_inside_schemas_witness :
  run self_ref_doc
  = Ok [mkFinding "error" "openapi" "Missing required 'openapi' version field";
        mkFinding "error" "info" "Missing required 'info' object";
        mkFinding "error" "paths" "Missing required 'paths' object";
        mkFinding "warning" "components.schemas.Orphan"
          "Schema 'Orphan' is defined but never referenced"]
  /\ (forall f,
        In f [mkFinding "error" "openapi"
                "Missing required 'openapi' version field";
              mkFinding "error" "info" "Missing required 'info' object";
              mkFinding "error" "paths" "Missing required 'paths' object";
              mkFinding "warning" "components.schemas.Orphan"
                "Schema 'Orphan' is defined but never referenced"] ->
        path f <> "components.schemas." ++ "Leaf").
Proof.
  split; [reflexivity|].
  apply (reference_inside_schemas self_ref_doc
           [("schemas",
             JDict [("Node",
                     JDict [("properties",
                             JDict [("next",
                                     JDict [("$ref",
                                             JStr "#/components/schemas/Node")])])]);
                    ("Orphan",
                     JDict [("items",
                             JList [JDict [("$ref",
                                            JStr "#/components/schemas/Leaf")]])]);
                    ("Leaf", JDict [])])]
           [("Node",
             JDict [("properties",
                     JDict [("next",
                             JDict [("$ref",
                                     JStr "#/components/schemas/Node")])])]);
            ("Orphan",
             JDict [("items",
                     JList [JDict [("$ref",
                                    JStr "#/components/schemas/Leaf")]])]);
            ("Leaf", JDict [])]
           "Leaf" "Orphan"
           (JDict [("items",
                    JList [JDict [("$ref",
                                   JStr "#/components/schemas/Leaf")]])])).
  - reflexivity.
  - reflexivity.
  - simpl. right. left. reflexivity.
  - reflexivity.
  - reflexivity.
Defined.

Lemma info_check_witness :
  filter (fun f => String.eqb (path f) "info")
    [mkFinding "error" "info.title" "Missing required 'info.title' field";
     mkFinding "error" "paths" "Missing required 'paths' object";
     mkFinding "warning" "info.description" "Missing 'info.description'"]
  = []
  /\ filter (fun f => String.eqb (path f) "info.title")
       [mkFinding "error" "info.title" "Missing required 'info.title' field";
        mkFinding "error" "paths" "Missing required 'paths' object";
        mkFinding "warning" "info.description" "Missing 'info.description'"]
     = [mkFinding "error" "info.title" "Missing required 'info.title' field"].
Proof.
  exact (info_check
           [("openapi", JStr "3.0.1"); ("info", JDict [("title", JStr "")])]
           _ eq_refl).
Defined.

Lemma paths_present_check_witness :
  filter (fun f => String.eqb (path f) "paths"
                   && String.eqb (severity f) "error")
    [mkFinding "error" "openapi" "Missing required 'openapi' version field";
     mkFinding "error" "info" "Missing required 'info' object"]
  = [].
Proof.
  exact (paths_present_check [("paths", JNull)] _ eq_refl).
Defined.

Lemma non_object_paths_skipped_witness :
  run [("paths", JList [JStr "/getUser"; JStr "/get_user"])]
  = Ok [mkFinding "error" "openapi" "Missing required 'openapi' version field";
        mkFinding "error" "info" "Missing required 'info' object"]
  /\ forall f,
       In f [mkFinding "error" "openapi"
               "Missing required 'openapi' version field";
             mkFinding "error" "info" "Missing required 'info' object"] ->
       String.prefix "paths" (path f) = false.
Proof.
  split; [reflexivity|].
  exact (non_object_paths_skipped
           [("paths", JList [JStr "/getUser"; JStr "/get_user"])]
           (JList [JStr "/getUser"; JStr "/get_user"]) _
           eq_refl eq_refl eq_refl).
Defined.

Lemma info_description_check_witness :
  filter (fun f => String.eqb (path f) "info.description")
    [mkFinding "error" "openapi" "Missing required 'openapi' version field";
     mkFinding "error" "paths" "Missing required 'paths' object";
     mkFinding "warning" "info.description" "Missing 'info.description'"]
  = [mkFinding "warning" "info.description" "Missing 'info.description'"].
Proof.
  exact (info_description_check
           [("info", JDict [("title", JStr "T"); ("description", JList [])])]
           _ eq_refl).
Defined.

Lemma operation_summary_check_witness :
  In (mkFinding "warning" "paths./pets.GET"
        "Operation is missing both 'summary' and 'description'")
     [mkFinding "error" "openapi" "Missing required 'openapi' version field";
      mkFinding "error" "info" "Missing required 'info' object";
      mkFinding "warning" "paths./pets.GET"
        "Operation is missing both 'summary' and 'description'"]
  <-> truthy (dict_get_or_none "summary" [("summary", JStr "")]) = false
      /\ truthy (dict_get_or_none "description" [("summary", JStr "")]) = false.
Proof.
  apply (operation_summary_check
           [("paths", JDict [("/pets", JDict [("GET", JDict [("summary", JStr "")]);
                                             ("post", JNull)])])]
           [("/pets", JDict [("GET", JDict [("summary", JStr "")]);
                             ("post", JNull)])]
           "/pets"
           [("GET", JDict [("summary", JStr "")]); ("post", JNull)]
           "GET"
           [("summary", JStr "")]).
  - reflexivity.
  - reflexivity.
  - simpl. left. reflexivity.
  - reflexivity.
  - simpl. left. reflexivity.
  - reflexivity.
  - reflexivity.
Defined.

Lemma response_description_check_witness :
  In (mkFinding "warning" "paths./x.get.responses.404"
        "Response is missing 'description'")
     [mkFinding "error" "openapi" "Missing required 'openapi' version field";
      mkFinding "error" "info" "Missing required 'info' object";
      mkFinding "warning" "paths./x.get.responses.404"
        "Response is missing 'description'"]
  /\ message (mkFinding "warning" "paths./x.get.responses.404"
                "Response is missing 'description'")
     = "Response is missing 'description'".
Proof.
  apply (response_description_check
           [("paths",
             JDict [("/x",
                     JDict [("get",
                             JDict [("summary", JStr "s");
                                    ("responses",
                                     JDict [("200", JDict [("description", JStr "ok")]);
                                            ("404", JDict []);
                                            ("default", JStr "none")])])])])]
           [("/x",
             JDict [("get",
                     JDict [("summary", JStr "s");
                            ("responses",
                             JDict [("200", JDict [("description", JStr "ok")]);
                                    ("404", JDict []);
                                    ("default", JStr "none")])])])]
           _ _ eq_refl eq_refl).
  exists "/x",
    [("get",
      JDict [("summary", JStr "s");
             ("responses",
              JDict [("200", JDict [("description", JStr "ok")]);
                     ("404", JDict []);
                     ("default", JStr "none")])])],
    "get",
    [("summary", JStr "s");
     ("responses",
      JDict [("200", JDict [("description", JStr "ok")]);
             ("404", JDict []);
             ("default", JStr "none")])],
    [("200", JDict [("description", JStr "ok")]); ("404", JDict []);
     ("default", JStr "none")],
    "404", [].
  repeat split; simpl; auto.
Defined.

Lemma errors_before_warnings_witness :
  [mkFinding "error" "paths./x.foo" "Invalid HTTP method: 'foo'";
   mkFinding "warning" "info.description" "Missing 'info.description'"]
  = (errors_of
       [mkFinding "error" "paths./x.foo" "Invalid HTTP method: 'foo'";
        mkFinding "warning" "info.description" "Missing 'info.description'"]
     ++ warnings_of
          [mkFinding "error" "paths./x.foo" "Invalid HTTP method: 'foo'";
           mkFinding "warning" "info.description" "Missing 'info.description'"])%list
  /\ Forall (fun f => severity f = "error")
       (errors_of
          [mkFinding "error" "paths./x.foo" "Invalid HTTP method: 'foo'";
           mkFinding "warning" "info.description" "Missing 'info.description'"])
  /\ Forall (fun f => severity f = "warning")
       (warnings_of
          [mkFinding "error" "paths./x.foo" "Invalid HTTP method: 'foo'";
           mkFinding "warning" "info.description" "Missing 'info.description'"]).
Proof.
  exact (errors_before_warnings
           [("openapi", JStr "3.0.0"); ("info", JDict [("title", JStr "T")]);
            ("paths", JDict [("/x", JDict [("foo", JNull)])])]
           _ eq_refl).
Defined.

Lemma collect_schema_refs_membership_witness :
  collect_schema_refs
    (JList [JDict [("$ref", JStr "#/a"); ("x", JDict [("$ref", JInt 7)])];
            JDict [("y", JList [JDict [("$ref", JStr "#/b")]])]])
    None
  = Ok [JStr "#/a"; JInt 7; JStr "#/b"]
  /\ forall t,
       set_mem_str t [JStr "#/a"; JInt 7; JStr "#/b"] = true
       <-> has_ref t
             (JList [JDict [("$ref", JStr "#/a");
                            ("x", JDict [("$ref", JInt 7)])];
                     JDict [("y", JList [JDict [("$ref", JStr "#/b")]])]])
           = true.
Proof.
  split; [reflexivity|].
  exact (collect_schema_refs_membership
           (JList [JDict [("$ref", JStr "#/a");
                          ("x", JDict [("$ref", JInt 7)])];
                   JDict [("y", JList [JDict [("$ref", JStr "#/b")]])]])
           _ eq_refl).
Defined.

Lemma collect_schema_refs_extends_witness :
  exists added,
    collect_schema_refs (JDict [("$ref", JStr "#/a"); ("b", JList [JNull])]) None
    = Ok added
    /\ [JStr "#/z"; JStr "#/a"] = ([JStr "#/z"] ++ added)%list
    /\ Forall (fun v => unhashable v = false) added.
Proof.
  exact (collect_schema_refs_extends
           (JDict [("$ref", JStr "#/a"); ("b", JList [JNull])])
           [JStr "#/z"] _ eq_refl).
Defined.

Lemma main_exit_code_witness :
  final (main (fun _ => FileContent "{}")
              (fun _ => Loaded (JDict [("openapi", JStr "3.0.0");
                                       ("info", JDict [("title", JStr "T")]);
                                       ("paths", JDict [])]))
              (fun _ => true)
              ["spec.json"; "--strict"])
  = SysExit 1.
Proof.
  exact (main_exit_code
           (fun _ => FileContent "{}")
           (fun _ => Loaded (JDict [("openapi", JStr "3.0.0");
                                    ("info", JDict [("title", JStr "T")]);
                                    ("paths", JDict [])]))
           (fun _ => true)
           ["spec.json"; "--strict"]
           (mkOptions (Some "spec.json") "text" true) "spec.json" "{}"
           [("openapi", JStr "3.0.0"); ("info", JDict [("title", JStr "T")]);
            ("paths", JDict [])]
           [mkFinding "warning" "info.description" "Missing 'info.description'"]
           eq_refl eq_refl ltac:(discriminate) eq_refl eq_refl eq_refl).
Defined.

Lemma json_report_counts_witness :
  exists (entries : list value) (e w code : Z),
    report (fun _ => true)
           [("info", JDict [("title", JStr "T")]); ("paths", JDict [])]
           "json" false
    = mkProcess
        [StdoutJson
           (JDict [("findings", JList entries);
                   ("summary",
                    JDict [("errors", JInt e); ("warnings", JInt w)])])]
        (SysExit code)
    /\ List.length entries = 2
    /\ (e + w)%Z = Z.of_nat 2
    /\ (code = 0%Z <-> e = 0%Z)
    /\ True.
Proof.
  exact (json_report_counts (fun _ => true)
           [("info", JDict [("title", JStr "T")]); ("paths", JDict [])]
           false _ eq_refl).
Defined.

Lemma main_text_unless_json_witness :
  Forall (fun e => is_stdout_json e = false)
    (trace (main (fun _ => FileContent "{}")
                 (fun _ => Loaded (JDict []))
                 (fun _ => true)
                 ["--format=json"; "spec.json"; "--format=JSON"])).
Proof.
  apply main_text_unless_json. simpl. discriminate.
Defined.

Lemma report_no_issues_witness :
  report (fun _ => true)
         [("openapi", JStr "3.1.0");
          ("info", JDict [("title", JStr "T"); ("description", JStr "d")]);
          ("paths", JDict [])]
         "text" true
  = mkProcess [Stdout "No issues found."] (SysExit 0)
  <-> @nil Finding = [].
Proof.
  apply (report_no_issues (fun _ => true)
           [("openapi", JStr "3.1.0");
            ("info", JDict [("title", JStr "T"); ("description", JStr "d")]);
            ("paths", JDict [])]
           "text" true []).
  - reflexivity.
  - discriminate.
Defined.
